(** * Easy Effects spectrum analyzer (src/src/spectrum.cpp)

    A shallow embedding of [Spectrum]: its constructor and the settings
    listener it registers, [setup], [process], the deferred FFT task posted
    with [util::idle_add], and the destructor.  Samples are IEEE binary32 values ([float]), the emitted
    power values binary64 ([double]); sizes and loop counters are [size_t],
    written as [Z] with the 64-bit wrap-around spelled out. *)

From Stdlib Require Import ZArith Lia.
From Stdlib Require Import Floats.SpecFloat.
From stdpp Require Import base tactics option list.

Local Open Scope Z_scope.

(** ** Floating point: binary32 and binary64 *)

Module F32.
Definition prec : Z := 24.
Definition emax : Z := 128.

Definition zero : spec_float := S754_zero false.
(** [0.5F] and [1.0F] *)
Definition half : spec_float := S754_finite false 8388608 (-24).
Definition one : spec_float := S754_finite false 8388608 (-23).

Definition add : spec_float -> spec_float -> spec_float := SFadd prec emax.
Definition sub : spec_float -> spec_float -> spec_float := SFsub prec emax.
Definition mul : spec_float -> spec_float -> spec_float := SFmul prec emax.
Definition div : spec_float -> spec_float -> spec_float := SFdiv prec emax.

(** [static_cast<float>(z)] for an integer [z]: round to nearest, ties to
    even. *)
Definition of_Z (z : Z) : spec_float := binary_normalize prec emax z 0 false.
End F32.

Module F64.
Definition prec : Z := 53.
Definition emax : Z := 1024.

(** [static_cast<double>(x)] for a [float] x: every binary32 value is a
    binary64 value, the conversion only renormalises the mantissa. *)
Definition of_f32 (x : spec_float) : spec_float :=
  match x with
  | S754_finite s m e => binary_round prec emax s m e
  | _ => x
  end.
End F64.

Abbreviation f32 := spec_float (only parsing).
Abbreviation f64 := spec_float (only parsing).

(** ** Sizes: [size_t] is 64 bits wide *)

Definition size_max : Z := 2 ^ 64.
Definition wrap (z : Z) : Z := z mod size_max.
Definition size_sub (a b : Z) : Z := wrap (a - b).
Definition size_add (a b : Z) : Z := wrap (a + b).
Definition size_mul (a b : Z) : Z := wrap (a * b).
Definition size {A} (l : list A) : Z := Z.of_nat (length l).

(** ** Outcomes: a call returns, or stops at a failed [assert], or leaves
    defined behaviour *)

Inductive fault : Type :=
| AssertionFailed      (* assert(...) in a build without NDEBUG *)
| OutOfBounds          (* access outside a vector, a span or an array *)
| UseAfterFree         (* use of the destroyed plan or the freed array *)
| NullPointer          (* use of a null array *)
| WouldBlock           (* the mutex is held: the caller waits *)
| Diverges.            (* a loop that does not finish *)

Inductive outcome (A : Type) : Type :=
| Ok (a : A)
| Fail (f : fault).
Arguments Ok {A} a.
Arguments Fail {A} f.

Definition bind {A B} (m : outcome A) (k : A -> outcome B) : outcome B :=
  match m with
  | Ok a => k a
  | Fail f => Fail f
  end.

Declare Scope outcome_scope.
Delimit Scope outcome_scope with outcome.
Notation "x <- m ;; k" := (bind m (fun x => k))
  (at level 100, m at next level, right associativity) : outcome_scope.
Local Open Scope outcome_scope.

Inductive build : Type := Debug | Release.

(** [assert(c)]: checked in a debug build, compiled out under NDEBUG. *)
Definition assert (b : build) (c : bool) : outcome unit :=
  match b with
  | Debug => if c then Ok tt else Fail AssertionFailed
  | Release => Ok tt
  end.

(** [v[i]] on a vector, span or array: reading and writing are defined only
    inside the bounds, and a write has the bounds of a read. *)
Definition rd {A} (v : list A) (i : Z) : outcome A :=
  if 0 <=? i
  then match v !! Z.to_nat i with
       | Some x => Ok x
       | None => Fail OutOfBounds
       end
  else Fail OutOfBounds.

Definition wr {A} (v : list A) (i : Z) (x : A) : outcome (list A) :=
  _ <- rd v i;;
  Ok (<[Z.to_nat i := x]> v).

(** [std::copy(src.begin(), src.end(), dst.begin())]: the first
    [src.size()] elements of [dst] are overwritten; a shorter [dst] is
    overrun. *)
Definition copy {A} (src dst : list A) : outcome (list A) :=
  if size src <=? size dst
  then Ok (src ++ drop (length src) dst)
  else Fail OutOfBounds.

(** ** Counted loops

    [for (T n = lo; n < hi; n++) body(n)] with an unsigned counter of
    [bits] bits, compared as [size_t].  One round tests the condition and
    runs the body.  [rounds_pos] runs at most [p] rounds and stops at the
    first round that leaves the loop or fails, so that a bound that wrapped
    around to almost 2^64 still evaluates. *)

Inductive round (St : Type) : Type :=
| Again (s : St)
| Leave (s : St)
| Stop (f : fault).
Arguments Again {St} s.
Arguments Leave {St} s.
Arguments Stop {St} f.

Definition and_then {St} (r : round St) (k : St -> round St) : round St :=
  match r with
  | Again s => k s
  | _ => r
  end.

Fixpoint rounds_pos {St} (p : positive) (step : St -> round St) (s : St)
    : round St :=
  match p with
  | xH => step s
  | xO q => and_then (rounds_pos q step s) (rounds_pos q step)
  | xI q => and_then (step s)
              (fun s1 => and_then (rounds_pos q step s1) (rounds_pos q step))
  end.

(** The same rounds counted in unary, for the proofs. *)
Fixpoint rounds {St} (k : nat) (step : St -> round St) (s : St) : round St :=
  match k with
  | O => Again s
  | S k' => and_then (step s) (rounds k' step)
  end.

Definition for_round {St} (bits hi : Z) (body : Z -> St -> outcome St)
    (st : Z * St) : round (Z * St) :=
  if fst st <? hi
  then match body (fst st) (snd st) with
       | Ok s' => Again ((fst st + 1) mod 2 ^ bits, s')
       | Fail f => Stop f
       end
  else Leave st.

(** A 64-bit counter below [hi <= 2^64 - 1] leaves the loop within 2^64
    rounds; a narrower counter that never reaches [hi] does not leave it. *)
Definition for_loop {St} (bits lo hi : Z) (body : Z -> St -> outcome St)
    (s : St) : outcome St :=
  match rounds_pos (Z.to_pos size_max) (for_round bits hi body) (lo, s) with
  | Leave st => Ok (snd st)
  | Stop f => Fail f
  | Again _ => Fail Diverges
  end.

(** ** The analyzer *)

(** Modelled from the spec: [n_bands] is declared in spectrum.hpp, which is
    not among the source files; the spec (6, Constants) and the comment in
    [Spectrum::setup] give 8192. *)
Definition n_bands : Z := 8192.

(** The array behind [complex_output], from [fftwf_alloc_complex] to
    [fftwf_free]. *)
Inductive fftw_array : Type :=
| Null
| Live (bins : list (f32 * f32))
| Freed.

(** One emission of the [power] signal: [(rate, n_points, spectrum)]. *)
Definition power_signal : Type := Z * Z * list f64.

Record Spectrum : Type := mkSpectrum {
  (* members of Spectrum *)
  in_mono : list f32;
  real_input : list f32;
  hann_window : list f32;
  output : list f64;
  complex_output : fftw_array;
  plan : bool;                 (* the plan exists and is not destroyed *)
  fftw_ready : bool;
  data_mutex : bool;           (* true while locked *)
  (* members inherited from PluginBase *)
  bypass : bool;
  send_notifications : bool;
  connected_to_pw : bool;
  rate : Z;
  (* the surroundings: tasks posted with util::idle_add and not yet run,
     and the emissions of the power signal, oldest first *)
  idle_queue : nat;
  power : list power_signal
}.

Definition set_in_mono (v : list f32) (s : Spectrum) : Spectrum :=
  mkSpectrum v (real_input s) (hann_window s) (output s) (complex_output s)
    (plan s) (fftw_ready s) (data_mutex s) (bypass s) (send_notifications s)
    (connected_to_pw s) (rate s) (idle_queue s) (power s).
Definition set_real_input (v : list f32) (s : Spectrum) : Spectrum :=
  mkSpectrum (in_mono s) v (hann_window s) (output s) (complex_output s)
    (plan s) (fftw_ready s) (data_mutex s) (bypass s) (send_notifications s)
    (connected_to_pw s) (rate s) (idle_queue s) (power s).
Definition set_output (v : list f64) (s : Spectrum) : Spectrum :=
  mkSpectrum (in_mono s) (real_input s) (hann_window s) v (complex_output s)
    (plan s) (fftw_ready s) (data_mutex s) (bypass s) (send_notifications s)
    (connected_to_pw s) (rate s) (idle_queue s) (power s).
Definition set_complex_output (c : fftw_array) (s : Spectrum) : Spectrum :=
  mkSpectrum (in_mono s) (real_input s) (hann_window s) (output s) c
    (plan s) (fftw_ready s) (data_mutex s) (bypass s) (send_notifications s)
    (connected_to_pw s) (rate s) (idle_queue s) (power s).
Definition set_plan (b : bool) (s : Spectrum) : Spectrum :=
  mkSpectrum (in_mono s) (real_input s) (hann_window s) (output s)
    (complex_output s) b (fftw_ready s) (data_mutex s) (bypass s)
    (send_notifications s) (connected_to_pw s) (rate s) (idle_queue s)
    (power s).
Definition set_fftw_ready (b : bool) (s : Spectrum) : Spectrum :=
  mkSpectrum (in_mono s) (real_input s) (hann_window s) (output s)
    (complex_output s) (plan s) b (data_mutex s) (bypass s)
    (send_notifications s) (connected_to_pw s) (rate s) (idle_queue s)
    (power s).
Definition set_data_mutex (b : bool) (s : Spectrum) : Spectrum :=
  mkSpectrum (in_mono s) (real_input s) (hann_window s) (output s)
    (complex_output s) (plan s) (fftw_ready s) b (bypass s)
    (send_notifications s) (connected_to_pw s) (rate s) (idle_queue s)
    (power s).
Definition set_bypass (b : bool) (s : Spectrum) : Spectrum :=
  mkSpectrum (in_mono s) (real_input s) (hann_window s) (output s)
    (complex_output s) (plan s) (fftw_ready s) (data_mutex s) b
    (send_notifications s) (connected_to_pw s) (rate s) (idle_queue s)
    (power s).
Definition set_connected_to_pw (b : bool) (s : Spectrum) : Spectrum :=
  mkSpectrum (in_mono s) (real_input s) (hann_window s) (output s)
    (complex_output s) (plan s) (fftw_ready s) (data_mutex s) (bypass s)
    (send_notifications s) b (rate s) (idle_queue s) (power s).
Definition set_idle_queue (n : nat) (s : Spectrum) : Spectrum :=
  mkSpectrum (in_mono s) (real_input s) (hann_window s) (output s)
    (complex_output s) (plan s) (fftw_ready s) (data_mutex s) (bypass s)
    (send_notifications s) (connected_to_pw s) (rate s) n (power s).
Definition set_power (p : list power_signal) (s : Spectrum) : Spectrum :=
  mkSpectrum (in_mono s) (real_input s) (hann_window s) (output s)
    (complex_output s) (plan s) (fftw_ready s) (data_mutex s) (bypass s)
    (send_notifications s) (connected_to_pw s) (rate s) (idle_queue s) p.

(** [std::scoped_lock<std::mutex> lock(data_mutex)] and the end of its
    scope. *)
Definition lock (s : Spectrum) : outcome Spectrum :=
  if data_mutex s then Fail WouldBlock else Ok (set_data_mutex true s).
Definition unlock (s : Spectrum) : Spectrum := set_data_mutex false s.

(** [util::idle_add(task)]: one more task waits for the main loop. *)
Definition idle_add (s : Spectrum) : Spectrum :=
  set_idle_queue (S (idle_queue s)) s.

(** *** The listener on [changed::show] (spectrum.cpp, 60-67) *)

(** [g_settings_get_boolean] returns a [gboolean], an [int] that is 1 or 0. *)
Definition gboolean (v : bool) : Z := if v then 1 else 0.

Definition on_show_changed (v : bool) (s : Spectrum) : outcome Spectrum :=
  s <- lock s;;
  Ok (unlock (set_bypass (gboolean v =? 0) s)).

(** *** [Spectrum::setup] (spectrum.cpp, 88-99) *)

(** [std::ranges::fill(v, x)] *)
Definition fill {A} (v : list A) (x : A) : list A := replicate (length v) x.

Definition setup (b : build) (s : Spectrum) : outcome Spectrum :=
  let s := set_in_mono (fill (in_mono s) F32.zero) s in
  let s := set_real_input (fill (real_input s) F32.zero) s in
  _ <- assert b (size (in_mono s) =? n_bands);;
  _ <- assert b (size (real_input s) =? n_bands);;
  Ok s.

(** *** [Spectrum::process] (spectrum.cpp, 101-156) *)

(** The spans are passed by their contents; the call returns the analyzer
    and the contents of [left_out] and [right_out].  The four spans are
    taken to be disjoint. *)
Definition shift_body (n_new_samples : Z) (n : Z) (v : list f32)
    : outcome (list f32) :=
  x <- rd v (size_add n_new_samples n);;
  wr v n x.

Definition downmix_body (n_new_samples : Z) (left_in right_in : list f32)
    (n : Z) (v : list f32) : outcome (list f32) :=
  l <- rd left_in n;;
  r <- rd right_in n;;
  wr v (size_add (size_sub n_bands n_new_samples) n)
     (F32.mul F32.half (F32.add l r)).

Definition window_body (mono window : list f32) (n : Z) (v : list f32)
    : outcome (list f32) :=
  m <- rd mono n;;
  h <- rd window n;;
  wr v n (F32.mul m h).

Definition process (b : build) (s : Spectrum)
    (left_in right_in left_out right_out : list f32)
    : outcome (Spectrum * list f32 * list f32) :=
  s <- lock s;;
  left_out <- copy left_in left_out;;
  right_out <- copy right_in right_out;;
  if bypass s || negb (fftw_ready s)
  then Ok (unlock s, left_out, right_out)
  else
    let n_new_samples := size left_in in
    _ <- assert b (size left_in =? size right_in);;
    _ <- assert b (n_new_samples <=? n_bands);;
    _ <- assert b (size (in_mono s) =? n_bands);;
    _ <- assert b (size (real_input s) =? n_bands);;
    mono <- for_loop 64 0 (size_sub n_bands n_new_samples)
              (shift_body n_new_samples) (in_mono s);;
    mono <- for_loop 64 0 n_new_samples
              (downmix_body n_new_samples left_in right_in) mono;;
    windowed <- for_loop 64 0 n_bands
                  (window_body mono (hann_window s)) (real_input s);;
    let s := set_real_input windowed (set_in_mono mono s) in
    let s := if send_notifications s then idle_add s else s in
    Ok (unlock s, left_out, right_out).

(** *** [Spectrum::get_latency_seconds] (spectrum.cpp, 158-160) *)
Definition get_latency_seconds (s : Spectrum) : f32 := F32.zero.

(** *** The deferred task, the constructor and the destructor

    The transform and the cosine come from libraries (FFTW, libm) and are
    kept abstract: [dft input k] is bin [k] of the forward real-to-complex
    transform of [input], [cosf] is [std::cos] on [float]. *)

Section Libraries.
Variable dft : list f32 -> Z -> f32 * f32.
Variable cosf : f32 -> f32.

(** [fftwf_execute(plan)]: the plan was made for [n_bands] samples at
    [real_input.data()] and writes bins 0 to n_bands/2 of
    [complex_output]. *)
Definition dft_bins (input : list f32) : list (f32 * f32) :=
  (fun k => dft input (Z.of_nat k)) <$> seq 0 (Z.to_nat (n_bands / 2 + 1)).

Definition fftwf_execute (s : Spectrum) : outcome Spectrum :=
  if plan s
  then
    if n_bands <=? size (real_input s)
    then match complex_output s with
         | Live c =>
             c <- copy (dft_bins (real_input s)) c;;
             Ok (set_complex_output (Live c) s)
         | Freed => Fail UseAfterFree
         | Null => Fail NullPointer
         end
    else Fail OutOfBounds
  else Fail UseAfterFree.

(** [complex_output[i]] *)
Definition rd_complex (c : fftw_array) (i : Z) : outcome (f32 * f32) :=
  match c with
  | Live bins => rd bins i
  | Freed => Fail UseAfterFree
  | Null => Fail NullPointer
  end.

Definition power_body (c : fftw_array) (n_points : Z) (i : Z)
    (out : list f64) : outcome (list f64) :=
  bin <- rd_complex c i;;
  let sqr := F32.add (F32.mul (fst bin) (fst bin))
                     (F32.mul (snd bin) (snd bin)) in
  let sqr := F32.div sqr (F32.of_Z (size_mul n_points n_points)) in
  wr out i (F64.of_f32 sqr).

(** [power.emit(rate, output.size(), output)]; the point count is passed
    as a [uint]. *)
Definition emit_power (s : Spectrum) : Spectrum :=
  set_power (power s ++ [(rate s, size (output s) mod 2 ^ 32, output s)]) s.

(** The lambda handed to [util::idle_add] (spectrum.cpp, 138-154).  It
    captures [this] and takes no lock. *)
Definition fft_task (s : Spectrum) : outcome Spectrum :=
  if bypass s
  then Ok s
  else
    s <- fftwf_execute s;;
    out <- for_loop 32 0 (size (output s))
             (power_body (complex_output s) (size (output s))) (output s);;
    Ok (emit_power (set_output out s)).

(** The main loop runs the oldest waiting task, if there is one. *)
Definition run_idle (s : Spectrum) : outcome Spectrum :=
  match idle_queue s with
  | O => Ok s
  | S n => fft_task (set_idle_queue n s)
  end.

(** [Spectrum::Spectrum] (spectrum.cpp, 39-68).  What [PluginBase] sets up
    ([bypass], [send_notifications], [connected_to_pw], [rate]) and what
    FFTW answers are arguments. *)
Definition pi_f32 : f32 := S754_finite false 13176795 (-22).

Definition hann (n : Z) : f32 :=
  F32.mul F32.half
    (F32.sub F32.one
       (cosf (F32.div (F32.mul (F32.mul (F32.of_Z 2) pi_f32) (F32.of_Z n))
                      (F32.of_Z (size_sub n_bands 1))))).

Definition resize {A} (n : Z) (x : A) : list A := replicate (Z.to_nat n) x.

(** [fftwf_alloc_complex(n)]: null when the allocation fails, else an array
    of [n] entries holding whatever the memory [held]. *)
Definition fftwf_alloc_complex (n : Z) (alloc : option (Z -> f32 * f32))
    : fftw_array :=
  match alloc with
  | None => Null
  | Some held => Live ((fun k => held (Z.of_nat k)) <$> seq 0 (Z.to_nat n))
  end.

(** [fftwf_plan_dft_r2c_1d] returns a plan, or null: [planned] says which.
    The constructor checks neither this result nor the array. *)
Definition construct (bypass0 send0 connected0 : bool) (rate0 : Z)
    (alloc : option (Z -> f32 * f32)) (planned : bool) : outcome Spectrum :=
  window <- for_loop 64 0 n_bands (fun n v => wr v n (hann n))
              (resize n_bands F32.zero);;
  Ok {| in_mono := resize n_bands F32.zero;
        real_input := resize n_bands F32.zero;
        hann_window := window;
        output := resize (size_add (n_bands / 2) 1) F32.zero;
        complex_output := fftwf_alloc_complex n_bands alloc;
        plan := planned;
        fftw_ready := true;
        data_mutex := false;
        bypass := bypass0;
        send_notifications := send0;
        connected_to_pw := connected0;
        rate := rate0;
        idle_queue := O;
        power := [] |}.

(** [Spectrum::~Spectrum] (spectrum.cpp, 70-86).  [destroy] is the body of
    the destructor, in the two stretches a task of the main loop can fall
    between: up to the store to [fftw_ready], and the release of the array
    and the plan.  The record it returns is the analyzer at the closing
    brace of the body; there the members and the base sub-object end, and
    [delete_spectrum] keeps what outlives them. *)

(** Modelled from the spec: [disconnect_from_pw] belongs to PluginBase,
    which is not among the source files; teardown disconnects from the
    audio server, after which the analyzer is no longer connected. *)
Definition disconnect_from_pw (s : Spectrum) : Spectrum :=
  set_connected_to_pw false s.

Definition destroy_begin (s : Spectrum) : outcome Spectrum :=
  let s := if connected_to_pw s then disconnect_from_pw s else s in
  s <- lock s;;
  Ok (set_fftw_ready false s).

Definition fftwf_free (c : fftw_array) : outcome fftw_array :=
  match c with
  | Live _ => Ok Freed
  | Freed => Fail UseAfterFree
  | Null => Ok Null
  end.

Definition destroy_end (s : Spectrum) : outcome Spectrum :=
  c <- match complex_output s with
       | Null => Ok Null
       | c => fftwf_free c
       end;;
  if plan s
  then Ok (unlock (set_plan false (set_complex_output c s)))
  else Fail UseAfterFree.

Definition destroy (s : Spectrum) : outcome Spectrum :=
  s <- destroy_begin s;;
  destroy_end s.

End Libraries.

(** What is left once the object is gone: the array and the plan as FFTW has
    them, the connection to the audio server, the tasks waiting in the main
    loop and the signals already emitted.  The vectors, the flags and the
    mutex are destroyed with the object. *)
Record remains : Type := mkRemains {
  left_array : fftw_array;
  left_plan : bool;
  left_connected : bool;
  left_queue : nat;
  left_power : list power_signal
}.

(** The whole destructor: its body, then the end of the members. *)
Definition delete_spectrum (s : Spectrum) : outcome remains :=
  s <- destroy s;;
  Ok {| left_array := complex_output s;
        left_plan := plan s;
        left_connected := connected_to_pw s;
        left_queue := idle_queue s;
        left_power := power s |}.



(** ** What the operations compute, as lists

    These are the values the proofs below show the loops to produce. *)

(** [0.5F * (left_in[n] + right_in[n])] for every frame. *)
Definition downmix (left_in right_in : list f32) : list f32 :=
  zip_with (fun l r => F32.mul F32.half (F32.add l r)) left_in right_in.

(** [in_mono[n] * hann_window[n]] for every index. *)
Definition windowed (mono window : list f32) : list f32 :=
  zip_with F32.mul mono window.

(** What a call that goes on leaves in the analyzer. *)
Definition ingest (left_in right_in : list f32) (s : Spectrum) : Spectrum :=
  let mono := drop (length left_in) (in_mono s) ++ downmix left_in right_in in
  let s := set_real_input (windowed mono (hann_window s)) (set_in_mono mono s) in
  if send_notifications s then idle_add s else s.

(** A call the host may make: the mutex is free, the spans agree in length
    and fit, the buffers have the size the constructor gave them. *)
Record legal_call (s : Spectrum)
    (left_in right_in left_out right_out : list f32) : Prop := {
  legal_mutex : data_mutex s = false;
  legal_frames : size right_in = size left_in;
  legal_chunk : size left_in <= n_bands;
  legal_left_out : size left_in <= size left_out;
  legal_right_out : size right_in <= size right_out;
  legal_mono : size (in_mono s) = n_bands;
  legal_real_input : size (real_input s) = n_bands;
  legal_window : size (hann_window s) = n_bands
}.

(** Every member but [bypass] is the same in [s] and [s']. *)
Definition bypass_only (s s' : Spectrum) : Prop :=
  in_mono s' = in_mono s /\ real_input s' = real_input s
  /\ hann_window s' = hann_window s /\ output s' = output s
  /\ complex_output s' = complex_output s /\ plan s' = plan s
  /\ fftw_ready s' = fftw_ready s /\ data_mutex s' = data_mutex s
  /\ send_notifications s' = send_notifications s
  /\ connected_to_pw s' = connected_to_pw s /\ rate s' = rate s
  /\ idle_queue s' = idle_queue s /\ power s' = power s.

(** The power of one bin, as the task computes it for [n_points] bins. *)
Definition bin_power (n_points : Z) (bin : f32 * f32) : f64 :=
  F64.of_f32
    (F32.div (F32.add (F32.mul (fst bin) (fst bin))
                      (F32.mul (snd bin) (snd bin)))
             (F32.of_Z (size_mul n_points n_points))).

(** The spectrum the task computes from [real_input]. *)
Definition spectrum_of (dft : list f32 -> Z -> f32 * f32) (input : list f32)
    : list f64 :=
  bin_power (n_bands / 2 + 1) <$> dft_bins dft input.

(** ** Runs of the audio thread and the main loop *)

(** What the audio thread and the main loop do, one after the other. *)
Inductive action : Type :=
| Process (left_in right_in left_out right_out : list f32)
| Idle.

Definition spans_fit (a : action) : Prop :=
  match a with
  | Process left_in right_in left_out right_out =>
      size left_in <= size left_out /\ size right_in <= size right_out
  | Idle => True
  end.

Definition perform (b : build) (dft : list f32 -> Z -> f32 * f32)
    (a : action) (s : Spectrum) : outcome Spectrum :=
  match a with
  | Process left_in right_in left_out right_out =>
      r <- process b s left_in right_in left_out right_out;;
      Ok (fst (fst r))
  | Idle => run_idle dft s
  end.

Fixpoint run (b : build) (dft : list f32 -> Z -> f32 * f32)
    (acts : list action) (s : Spectrum) : outcome Spectrum :=
  match acts with
  | [] => Ok s
  | a :: acts => s <- perform b dft a s;; run b dft acts s
  end.

(** ** An analyzer and a chunk for the examples

    The buffers have the sizes the constructor gives them; the window is
    flat, since the cosine is not evaluated here. *)
Definition example_analyzer : Spectrum :=
  {| in_mono := resize n_bands F32.zero;
     real_input := resize n_bands F32.zero;
     hann_window := resize n_bands F32.half;
     output := resize (n_bands / 2 + 1) F32.zero;
     complex_output := Live (resize n_bands (F32.zero, F32.zero));
     plan := true;
     fftw_ready := true;
     data_mutex := false;
     bypass := false;
     send_notifications := true;
     connected_to_pw := true;
     rate := 48000;
     idle_queue := O;
     power := [] |}.

Definition example_left : list f32 :=
  [F32.of_Z 1; F32.of_Z 2; F32.of_Z 3; F32.of_Z 4].
Definition example_right : list f32 :=
  [F32.of_Z (-1); F32.of_Z 0; F32.of_Z 1; F32.of_Z 2].
Definition example_out : list f32 := resize 4 F32.zero.

Definition example_dft (input : list f32) (k : Z) : f32 * f32 :=
  (F32.of_Z k, F32.zero).

Definition example_call : action :=
  Process example_left example_right example_out example_out.

Definition oversize_chunk : list f32 := resize 9000 F32.one.

(** ** Notions for the properties beyond the single call *)

(** The frames a run of calls mixes down, oldest first. *)
Definition mix_of (a : action) : list f32 :=
  match a with
  | Process left_in right_in _ _ => downmix left_in right_in
  | Idle => []
  end.

Definition mixed (acts : list action) : list f32 :=
  concat (mix_of <$> acts).

(** A call of [process] with input spans of one length, at most [n_bands],
    and output spans that hold them. *)
Definition chunk_fits (a : action) : Prop :=
  match a with
  | Process left_in right_in left_out right_out =>
      size right_in = size left_in /\ size left_in <= n_bands
      /\ size left_in <= size left_out /\ size right_in <= size right_out
  | Idle => False
  end.

(** The buffers have the size the constructor gives them. *)
Record sized (s : Spectrum) : Prop := {
  sized_mono : size (in_mono s) = n_bands;
  sized_real_input : size (real_input s) = n_bands;
  sized_window : size (hann_window s) = n_bands
}.

(** What [process] leaves alone: every member but [in_mono], [real_input]
    and the queue of the main loop; the mutex is free again. *)
Definition process_frame (s s' : Spectrum) : Prop :=
  hann_window s' = hann_window s /\ output s' = output s
  /\ complex_output s' = complex_output s /\ plan s' = plan s
  /\ fftw_ready s' = fftw_ready s /\ bypass s' = bypass s
  /\ send_notifications s' = send_notifications s
  /\ connected_to_pw s' = connected_to_pw s /\ rate s' = rate s
  /\ power s' = power s /\ data_mutex s' = false.

(** What [setup] leaves alone: every member but the two buffers. *)
Definition setup_frame (s s' : Spectrum) : Prop :=
  hann_window s' = hann_window s /\ output s' = output s
  /\ complex_output s' = complex_output s /\ plan s' = plan s
  /\ fftw_ready s' = fftw_ready s /\ data_mutex s' = data_mutex s
  /\ bypass s' = bypass s
  /\ send_notifications s' = send_notifications s
  /\ connected_to_pw s' = connected_to_pw s /\ rate s' = rate s
  /\ idle_queue s' = idle_queue s /\ power s' = power s.

(** What the deferred task leaves alone: every member but [output],
    [complex_output] and the emitted signals. *)
Definition task_frame (s s' : Spectrum) : Prop :=
  in_mono s' = in_mono s /\ real_input s' = real_input s
  /\ hann_window s' = hann_window s /\ plan s' = plan s
  /\ fftw_ready s' = fftw_ready s /\ data_mutex s' = data_mutex s
  /\ bypass s' = bypass s
  /\ send_notifications s' = send_notifications s
  /\ connected_to_pw s' = connected_to_pw s /\ rate s' = rate s
  /\ idle_queue s' = idle_queue s.

(** A [float] or [double] that is not negative: +0, a positive number,
    +infinity, or NaN. *)
Definition not_negative (x : spec_float) : bool :=
  match x with
  | S754_zero s | S754_infinity s | S754_finite s _ _ => negb s
  | S754_nan => true
  end.

(** A stand-in for the cosine in the examples: it is right at 0 only. *)
Definition flat_cos (x : f32) : f32 := F32.one.

Definition full_chunk : list f32 := resize n_bands F32.one.

(** * Proofs *)

(** ** Loops *)

Section Rounds.
Context {St : Type}.
Implicit Types (step : St -> round St) (s : St).

Lemma and_then_assoc (r : round St) k1 k2 :
  and_then (and_then r k1) k2 = and_then r (fun s => and_then (k1 s) k2).
Proof. destruct r; reflexivity. Qed.

Lemma rounds_add a b step s :
  rounds (a + b) step s = and_then (rounds a step s) (rounds b step).
Proof.
  revert s; induction a as [|a IH]; intros s; simpl; [reflexivity|].
  destruct (step s) as [s1| |]; simpl; auto.
Qed.

Lemma rounds_pos_unary p step s :
  rounds_pos p step s = rounds (Pos.to_nat p) step s.
Proof.
  revert s; induction p as [q IH|q IH|]; intros s; simpl rounds_pos.
  - rewrite Pos2Nat.inj_xI.
    replace (S (2 * Pos.to_nat q))%nat
      with (1 + (Pos.to_nat q + Pos.to_nat q))%nat by lia.
    rewrite rounds_add; simpl.
    destruct (step s) as [s1| |]; simpl; [|reflexivity..].
    rewrite rounds_add, IH.
    destruct (rounds (Pos.to_nat q) step s1); simpl; auto.
  - rewrite Pos2Nat.inj_xO.
    replace (2 * Pos.to_nat q)%nat
      with (Pos.to_nat q + Pos.to_nat q)%nat by lia.
    rewrite rounds_add, IH.
    destruct (rounds (Pos.to_nat q) step s); simpl; auto.
  - simpl. destruct (step s); reflexivity.
Qed.

(** More rounds do not change a loop that was left or has failed. *)
Lemma rounds_settled a b step s :
  (forall s', rounds a step s <> Again s') ->
  rounds (a + b) step s = rounds a step s.
Proof.
  intros H. rewrite rounds_add.
  destruct (rounds a step s) as [s'| |]; simpl; [|reflexivity..].
  exfalso; apply (H s'); reflexivity.
Qed.
End Rounds.

Section ForLoop.
Context {St : Type}.
Variables (bits hi : Z) (body : Z -> St -> outcome St).
Hypothesis bits_le : 0 <= bits <= 64.
Hypothesis hi_lt : hi < 2 ^ bits.

Lemma pow_bits_le : 2 ^ bits <= size_max.
Proof. unfold size_max. apply Z.pow_le_mono_r; lia. Qed.

(** The rounds of a loop whose bodies all return: [inv] holds of the
    counter and the state before every round. *)
Lemma rounds_for_inv (inv : Z -> St -> Prop) :
  (forall n s, 0 <= n < hi -> inv n s ->
               exists s', body n s = Ok s' /\ inv (n + 1) s') ->
  forall (k : nat) (n : Z) (s : St),
    0 <= n <= hi -> Z.of_nat k = hi - n -> inv n s ->
    exists s', rounds (S k) (for_round bits hi body) (n, s) = Leave (hi, s')
               /\ inv hi s'.
Proof.
  intros Hbody. induction k as [|k IH]; intros n s Hn Hk Hinv.
  - assert (n = hi) by lia; subst n. exists s. split; [|assumption].
    simpl. unfold for_round; simpl.
    rewrite (proj2 (Z.ltb_ge hi hi)) by lia. reflexivity.
  - destruct (Hbody n s) as (s1 & Hs1 & Hinv1); [lia|assumption|].
    destruct (IH (n + 1) s1) as (s' & Hr & Hinv'); [lia|lia|assumption|].
    exists s'. split; [|assumption].
    change (rounds (S (S k)) (for_round bits hi body) (n, s))
      with (and_then (for_round bits hi body (n, s))
              (rounds (S k) (for_round bits hi body))).
    unfold for_round at 1; simpl fst; simpl snd.
    rewrite (proj2 (Z.ltb_lt n hi)) by lia. rewrite Hs1.
    rewrite Z.mod_small by lia. exact Hr.
Qed.

Lemma for_loop_inv (inv : Z -> St -> Prop) (lo : Z) (s : St) :
  0 <= lo <= hi -> inv lo s ->
  (forall n s, 0 <= n < hi -> inv n s ->
               exists s', body n s = Ok s' /\ inv (n + 1) s') ->
  exists s', for_loop bits lo hi body s = Ok s' /\ inv hi s'.
Proof.
  intros Hlo Hinv Hbody.
  destruct (rounds_for_inv inv Hbody (Z.to_nat (hi - lo)) lo s)
    as (s' & Hr & Hinv'); [lia|lia|assumption|].
  exists s'. split; [|assumption].
  unfold for_loop. rewrite rounds_pos_unary.
  pose proof pow_bits_le.
  replace (Pos.to_nat (Z.to_pos size_max))
    with (S (Z.to_nat (hi - lo))
          + (Z.to_nat size_max - S (Z.to_nat (hi - lo))))%nat.
  - rewrite rounds_settled; rewrite Hr; [reflexivity|discriminate].
  - rewrite <- Z2Nat.inj_pos, Z2Pos.id by (unfold size_max; lia).
    lia.
Qed.

(** A loop whose first body fails, fails. *)
Lemma for_loop_first_fails (lo : Z) (s : St) (f : fault) :
  lo < hi -> body lo s = Fail f -> for_loop bits lo hi body s = Fail f.
Proof.
  intros Hlo Hf. unfold for_loop. rewrite rounds_pos_unary.
  destruct (Pos2Nat.is_succ (Z.to_pos size_max)) as [k ->].
  simpl. unfold for_round; simpl.
  rewrite (proj2 (Z.ltb_lt lo hi)) by assumption. rewrite Hf. reflexivity.
Qed.
End ForLoop.

(** ** Vectors *)

Lemma size_nonneg {A} (v : list A) : 0 <= size v.
Proof. unfold size; lia. Qed.

Lemma rd_ok {A} (v : list A) (i : Z) (x : A) :
  0 <= i -> v !! Z.to_nat i = Some x -> rd v i = Ok x.
Proof.
  intros Hi Hx. unfold rd. rewrite Hx.
  rewrite (proj2 (Z.leb_le 0 i)) by lia. reflexivity.
Qed.

Lemma rd_out_of_bounds {A} (v : list A) (i : Z) :
  size v <= i -> rd v i = Fail OutOfBounds.
Proof.
  intros Hi. unfold rd. pose proof (size_nonneg v).
  rewrite (proj2 (Z.leb_le 0 i)) by lia.
  rewrite (proj2 (lookup_ge_None v (Z.to_nat i))) by (unfold size in *; lia).
  reflexivity.
Qed.

Lemma wr_ok {A} (v : list A) (i : Z) (x : A) :
  0 <= i < size v -> wr v i x = Ok (<[Z.to_nat i := x]> v).
Proof.
  intros Hi. unfold wr.
  destruct (lookup_lt_is_Some_2 v (Z.to_nat i)) as [y Hy];
    [unfold size in *; lia|].
  rewrite (rd_ok v i y) by (assumption || lia). reflexivity.
Qed.

Lemma copy_ok {A} (src dst : list A) :
  size src <= size dst -> copy src dst = Ok (src ++ drop (length src) dst).
Proof.
  intros H. unfold copy. rewrite (proj2 (Z.leb_le _ _)) by assumption.
  reflexivity.
Qed.

Lemma copy_same_size {A} (src dst : list A) :
  size src = size dst -> copy src dst = Ok src.
Proof.
  intros H. rewrite copy_ok by lia.
  rewrite drop_ge by (unfold size in H; lia). rewrite app_nil_r. reflexivity.
Qed.

Lemma wrap_small (z : Z) : 0 <= z < size_max -> wrap z = z.
Proof. intros H. unfold wrap. apply Z.mod_small. assumption. Qed.

(** Writing the next element of [src] over the first remaining old one. *)
Lemma insert_next {A} (pre src old post : list A) (n : nat) (x : A) :
  src !! n = Some x -> (n < length old)%nat ->
  <[(length pre + n)%nat := x]> (pre ++ take n src ++ drop n old ++ post)
  = pre ++ take (S n) src ++ drop (S n) old ++ post.
Proof.
  intros Hx Hn. pose proof (lookup_lt_Some _ _ _ Hx) as Hlt.
  rewrite insert_app_r. f_equal.
  rewrite (take_S_r _ _ _ Hx), <- app_assoc. simpl.
  replace n with (length (take n src) + 0)%nat at 1
    by (rewrite length_take; lia).
  rewrite insert_app_r. f_equal.
  destruct (lookup_lt_is_Some_2 old n Hn) as [y Hy].
  rewrite (drop_S _ _ _ Hy). reflexivity.
Qed.

(** A loop that writes [src] over the stretch [old] of a vector, one element
    per round. *)
Lemma for_loop_fill {A} (bits : Z) (body : Z -> list A -> outcome (list A))
    (pre src old post : list A) :
  0 <= bits <= 64 -> size src < 2 ^ bits -> length old = length src ->
  (forall (n : nat) (x : A), src !! n = Some x ->
     body (Z.of_nat n) (pre ++ take n src ++ drop n old ++ post)
     = Ok (<[(length pre + n)%nat := x]>
             (pre ++ take n src ++ drop n old ++ post))) ->
  for_loop bits 0 (size src) body (pre ++ old ++ post)
  = Ok (pre ++ src ++ post).
Proof.
  intros Hbits Hsize Hlen Hbody.
  destruct (for_loop_inv bits (size src) body Hbits Hsize
              (fun n v => v = pre ++ take (Z.to_nat n) src
                                ++ drop (Z.to_nat n) old ++ post)
              0 (pre ++ old ++ post)) as (v & Hv & Hinv).
  - pose proof (size_nonneg src). lia.
  - reflexivity.
  - intros n v Hn ->. unfold size in Hn.
    destruct (lookup_lt_is_Some_2 src (Z.to_nat n)) as [x Hx]; [lia|].
    exists (pre ++ take (S (Z.to_nat n)) src ++ drop (S (Z.to_nat n)) old ++ post).
    split.
    + rewrite <- (Z2Nat.id n) at 1 by lia.
      rewrite (Hbody _ _ Hx). f_equal. apply insert_next; [assumption|lia].
    + replace (Z.to_nat (n + 1)) with (S (Z.to_nat n)) by lia. reflexivity.
  - rewrite Hv, Hinv. unfold size. rewrite Nat2Z.id.
    rewrite take_ge, drop_ge by lia. reflexivity.
Qed.

(** The same for a loop that rewrites the whole vector. *)
Lemma for_loop_rewrite {A} (bits : Z) (body : Z -> list A -> outcome (list A))
    (src old : list A) :
  0 <= bits <= 64 -> size src < 2 ^ bits -> length old = length src ->
  (forall (n : nat) (x : A), src !! n = Some x ->
     body (Z.of_nat n) (take n src ++ drop n old)
     = Ok (<[n := x]> (take n src ++ drop n old))) ->
  for_loop bits 0 (size src) body old = Ok src.
Proof.
  intros Hbits Hsize Hlen Hbody.
  pose proof (for_loop_fill bits body [] src old [] Hbits Hsize Hlen) as H.
  simpl in H. rewrite !app_nil_r in H. apply H.
  intros n x Hx. rewrite app_nil_r. apply Hbody. assumption.
Qed.

Lemma length_filling {A} (pre src old post : list A) (n : nat) :
  length old = length src -> (n <= length src)%nat ->
  length (pre ++ take n src ++ drop n old ++ post)
  = (length pre + length old + length post)%nat.
Proof.
  intros Hlen Hn. rewrite !length_app, length_take, length_drop. lia.
Qed.

(** ** The three loops of [process] *)

Lemma shift_loop_ok (B : list f32) (M : Z) :
  0 <= M <= size B -> size B < size_max ->
  for_loop 64 0 (size_sub (size B) M) (shift_body M) B
  = Ok (drop (Z.to_nat M) B ++ drop (Z.to_nat (size B - M)) B).
Proof.
  intros HM HB. unfold size_sub. rewrite wrap_small by lia.
  set (m := Z.to_nat M). set (k := Z.to_nat (size B - M)).
  assert (Hk : (k + m = length B)%nat) by (unfold size in *; lia).
  pose proof (for_loop_fill 64 (shift_body M) [] (drop m B) (take k B)
                (drop k B)) as H.
  simpl in H. rewrite take_drop in H.
  replace (size (drop m B)) with (size B - M) in H
    by (unfold size; rewrite length_drop; lia).
  apply H; clear H.
  - lia.
  - change (2 ^ 64) with size_max. lia.
  - rewrite length_take, length_drop. lia.
  - intros n x Hx.
    pose proof (lookup_lt_Some _ _ _ Hx) as Hn. rewrite length_drop in Hn.
    assert (Hv : take n (drop m B) ++ drop n (take k B) ++ drop k B
                 = take n (drop m B) ++ drop n B).
    { f_equal. rewrite <- (take_drop k B) at 3.
      rewrite drop_app_le by (rewrite length_take; lia). reflexivity. }
    rewrite Hv. unfold shift_body.
    assert (Hlen : length (take n (drop m B) ++ drop n B) = length B).
    { rewrite length_app, length_take, !length_drop. lia. }
    unfold size_add. rewrite wrap_small by (unfold size in *; lia).
    rewrite (rd_ok _ _ x); [| lia |].
    + simpl. rewrite wr_ok by (unfold size; lia).
      rewrite Nat2Z.id. reflexivity.
    + rewrite lookup_app_r by (rewrite length_take, length_drop; lia).
      rewrite length_take, length_drop, lookup_drop.
      rewrite lookup_drop in Hx. rewrite <- Hx. f_equal. lia.
Qed.

Lemma downmix_loop_ok (pre old left_in right_in : list f32) :
  size left_in <= size right_in ->
  size pre + size left_in = n_bands -> length old = length left_in ->
  for_loop 64 0 (size left_in)
    (downmix_body (size left_in) left_in right_in) (pre ++ old)
  = Ok (pre ++ take (length left_in) (downmix left_in right_in)).
Proof.
  intros Hlr Hpre Hold.
  assert (Hmix : length (take (length left_in) (downmix left_in right_in))
                 = length left_in).
  { unfold downmix. rewrite length_take, length_zip_with.
    unfold size in Hlr. lia. }
  set (src := take (length left_in) (downmix left_in right_in)) in *.
  pose proof (for_loop_fill 64
                (downmix_body (size left_in) left_in right_in)
                pre src old []) as H.
  rewrite !app_nil_r in H.
  replace (size src) with (size left_in) in H by (unfold size; lia).
  apply H; clear H.
  - lia.
  - change (2 ^ 64) with size_max. unfold n_bands, size_max in *.
    pose proof (size_nonneg pre). lia.
  - lia.
  - intros n x Hx. pose proof (lookup_lt_Some _ _ _ Hx) as Hn.
    unfold src in Hx. rewrite lookup_take_lt in Hx by lia.
    unfold downmix in Hx. apply lookup_zip_with_Some in Hx.
    destruct Hx as (l & r & -> & Hl & Hr).
    unfold downmix_body.
    rewrite (rd_ok _ _ l), (rd_ok _ _ r) by (rewrite ?Nat2Z.id; auto; lia).
    simpl. unfold size_add, size_sub.
    pose proof (size_nonneg pre). pose proof (size_nonneg left_in).
    assert (Hsz : size pre = Z.of_nat (length pre)) by reflexivity.
    rewrite (wrap_small (n_bands - _))
      by (unfold n_bands, size_max in *; lia).
    rewrite wrap_small by (unfold n_bands, size_max, size in *; lia).
    rewrite wr_ok.
    + repeat f_equal. lia.
    + unfold size at 3.
      rewrite (length_filling pre src old []) by lia. simpl.
      unfold size in *. lia.
Qed.

Lemma window_loop_ok (mono window old : list f32) :
  size mono = n_bands -> size window = n_bands -> size old = n_bands ->
  for_loop 64 0 n_bands (window_body mono window) old
  = Ok (windowed mono window).
Proof.
  intros Hm Hw Ho.
  assert (Hlen : length (windowed mono window) = length old).
  { unfold windowed. rewrite length_zip_with. unfold size in *. lia. }
  pose proof (for_loop_fill 64 (window_body mono window) []
                (windowed mono window) old []) as H.
  simpl in H. rewrite !app_nil_r in H.
  replace (size (windowed mono window)) with n_bands in H
    by (unfold size in *; lia).
  apply H; clear H.
  - lia.
  - unfold n_bands. lia.
  - lia.
  - intros n x Hx. pose proof (lookup_lt_Some _ _ _ Hx) as Hn.
    unfold windowed in Hx. apply lookup_zip_with_Some in Hx.
    destruct Hx as (m & h & -> & Hmn & Hhn).
    unfold window_body.
    rewrite (rd_ok _ _ m), (rd_ok _ _ h) by (rewrite ?Nat2Z.id; auto; lia).
    simpl. rewrite wr_ok.
    + rewrite Nat2Z.id. reflexivity.
    + unfold size in *. rewrite !length_app, length_take, length_drop. lia.
Qed.

(** ** [process] *)

Arguments n_bands : simpl never.

Lemma unlock_lock (s : Spectrum) :
  data_mutex s = false -> lock s = Ok (set_data_mutex true s)
                          /\ unlock (set_data_mutex true s) = s.
Proof.
  intros H. unfold lock. rewrite H. split; [reflexivity|].
  destruct s; simpl in *; subst; reflexivity.
Qed.

(** The call returns early: nothing but the pass-through copy happens. *)
Lemma process_early (b : build) (s : Spectrum)
    (left_in right_in left_out right_out : list f32) :
  data_mutex s = false ->
  size left_in <= size left_out -> size right_in <= size right_out ->
  bypass s || negb (fftw_ready s) = true ->
  process b s left_in right_in left_out right_out
  = Ok (s, left_in ++ drop (length left_in) left_out,
           right_in ++ drop (length right_in) right_out).
Proof.
  intros Hm Hl Hr Hearly. unfold process.
  destruct (unlock_lock s Hm) as [-> Hun]. cbn [bind].
  rewrite !copy_ok by assumption. cbn [bind].
  change (bypass (set_data_mutex true s)) with (bypass s).
  change (fftw_ready (set_data_mutex true s)) with (fftw_ready s).
  rewrite Hearly, Hun. reflexivity.
Qed.

Lemma process_active (b : build) (s : Spectrum)
    (left_in right_in left_out right_out : list f32) :
  legal_call s left_in right_in left_out right_out ->
  bypass s = false -> fftw_ready s = true ->
  process b s left_in right_in left_out right_out
  = Ok (ingest left_in right_in s,
        left_in ++ drop (length left_in) left_out,
        right_in ++ drop (length right_in) right_out).
Proof.
  intros [Hm Hlr HM Hlo Hro Hmono Hreal Hwin] Hby Hready. unfold process.
  destruct (unlock_lock s Hm) as [-> _]. cbn [bind].
  rewrite !copy_ok by assumption. cbn [bind].
  change (bypass (set_data_mutex true s)) with (bypass s).
  change (fftw_ready (set_data_mutex true s)) with (fftw_ready s).
  change (in_mono (set_data_mutex true s)) with (in_mono s).
  change (real_input (set_data_mutex true s)) with (real_input s).
  change (hann_window (set_data_mutex true s)) with (hann_window s).
  rewrite Hby, Hready. cbn [orb negb].
  assert (Hasserts : forall c, c = true -> assert b c = Ok tt)
    by (intros c ->; destruct b; reflexivity).
  rewrite !Hasserts by (apply Z.eqb_eq || apply Z.leb_le; lia).
  cbn [bind]. pose proof (size_nonneg left_in) as Hnn.
  pose proof (shift_loop_ok (in_mono s) (size left_in)) as Hshift.
  rewrite Hmono in Hshift.
  rewrite Hshift by (unfold n_bands, size_max in *; lia). cbn [bind].
  clear Hshift.
  rewrite downmix_loop_ok.
  - cbn [bind].
    replace (Z.to_nat (size left_in)) with (length left_in)
      by (unfold size; lia).
    rewrite (take_ge (downmix left_in right_in))
      by (unfold downmix; rewrite length_zip_with; unfold size in *; lia).
    rewrite window_loop_ok; [|unfold downmix, size in *..].
    + cbn [bind]. f_equal. f_equal. f_equal. unfold ingest.
      destruct s; simpl in *; subst. destruct send_notifications0; reflexivity.
    + rewrite length_app, length_drop, length_zip_with. lia.
    + assumption.
    + assumption.
  - lia.
  - unfold size in *. rewrite length_drop. lia.
  - rewrite length_drop. unfold size in *. lia.
Qed.

(** Whatever happens after the copy, a call that returns hands back the
    copied spans. *)
Lemma process_returns_copies (b : build) (s s' : Spectrum)
    (left_in right_in left_out right_out left_out' right_out' : list f32) :
  process b s left_in right_in left_out right_out
  = Ok (s', left_out', right_out') ->
  copy left_in left_out = Ok left_out'
  /\ copy right_in right_out = Ok right_out'.
Proof.
  unfold process. destruct (lock s) as [s1|]; cbn [bind]; [|discriminate].
  destruct (copy left_in left_out) as [lo|]; cbn [bind]; [|discriminate].
  destruct (copy right_in right_out) as [ro|]; cbn [bind]; [|discriminate].
  destruct (bypass s1 || negb (fftw_ready s1)).
  - intros [= _ -> ->]. split; reflexivity.
  - repeat match goal with
           | |- context [bind ?m _] =>
               destruct m; cbn [bind]; [|discriminate]
           end.
    intros [= _ -> ->]. split; reflexivity.
Qed.

Lemma example_call_legal (s : Spectrum) :
  data_mutex s = false -> size (in_mono s) = n_bands ->
  size (real_input s) = n_bands -> size (hann_window s) = n_bands ->
  legal_call s example_left example_right example_out example_out.
Proof. intros; split; try assumption; unfold n_bands; vm_compute; congruence. Qed.

(** Scenario S1 of the spec: the four new frames end up at the end of the
    mono buffer, in front of them the buffer is still zero. *)
Example scenario_short_chunk :
  match process Debug example_analyzer
          example_left example_right example_out example_out with
  | Ok (s', left_out, right_out) =>
      left_out = example_left /\ right_out = example_right
      /\ drop (Z.to_nat 8188) (in_mono s')
         = [F32.of_Z 0; F32.of_Z 1; F32.of_Z 2; F32.of_Z 3]
      /\ take (Z.to_nat 8188) (in_mono s') = resize 8188 F32.zero
  | Fail _ => False
  end.
Proof.
  rewrite process_active;
    [|apply example_call_legal; reflexivity|reflexivity..].
  vm_compute. repeat split.
Qed.

(** ** Pass-through *)

(** C3 (transparency).  With output spans as long as the input spans, every
    call of [process] that returns has made [left_out] equal to [left_in]
    and [right_out] equal to [right_in], in a debug and in a release build,
    whatever [bypass] and [fftw_ready] are; and every legal call does
    return. *)
Theorem process_transparent (b : build) (s : Spectrum)
    (left_in right_in left_out right_out : list f32) :
  size left_out = size left_in -> size right_out = size right_in ->
  (forall s' left_out' right_out',
      process b s left_in right_in left_out right_out
      = Ok (s', left_out', right_out') ->
      left_out' = left_in /\ right_out' = right_in)
  /\ (legal_call s left_in right_in left_out right_out ->
      exists s', process b s left_in right_in left_out right_out
                 = Ok (s', left_in, right_in)).
Proof.
  intros Hl Hr.
  assert (Hdl : left_in ++ drop (length left_in) left_out = left_in)
    by (rewrite drop_ge, app_nil_r by (unfold size in *; lia); reflexivity).
  assert (Hdr : right_in ++ drop (length right_in) right_out = right_in)
    by (rewrite drop_ge, app_nil_r by (unfold size in *; lia); reflexivity).
  split.
  - intros s' lo ro Hp. apply process_returns_copies in Hp as [Hcl Hcr].
    rewrite copy_same_size in Hcl, Hcr by lia. split; congruence.
  - intros Hlegal. destruct (bypass s || negb (fftw_ready s)) eqn:Hearly.
    + exists s. rewrite process_early; try assumption; try lia.
      * rewrite Hdl, Hdr. reflexivity.
      * apply Hlegal.
    + apply orb_false_elim in Hearly as [Hby Hready].
      apply negb_false_iff in Hready.
      exists (ingest left_in right_in s).
      rewrite process_active by assumption. rewrite Hdl, Hdr. reflexivity.
Qed.

Lemma process_transparent_witness :
  exists s', process Debug example_analyzer
               example_left example_right example_out example_out
             = Ok (s', example_left, example_right).
Proof.
  apply (process_transparent Debug example_analyzer
           example_left example_right example_out example_out);
    [reflexivity | reflexivity |].
  apply example_call_legal; reflexivity.
Defined.

(** C10 (early return).  When [bypass] is set or [fftw_ready] is false at
    entry, the call returns right after the pass-through copy: the analyzer
    it leaves is the one it found, so the mono buffer and [real_input] are
    unchanged and no task was posted. *)
Theorem process_early_return (b : build) (s : Spectrum)
    (left_in right_in left_out right_out : list f32) :
  data_mutex s = false ->
  size left_in <= size left_out -> size right_in <= size right_out ->
  bypass s = true \/ fftw_ready s = false ->
  exists s',
    process b s left_in right_in left_out right_out
    = Ok (s', left_in ++ drop (length left_in) left_out,
              right_in ++ drop (length right_in) right_out)
    /\ in_mono s' = in_mono s /\ real_input s' = real_input s /\ s' = s.
Proof.
  intros Hm Hl Hr Hearly. exists s. split; [|auto].
  apply process_early; try assumption.
  destruct Hearly as [-> | ->]; [reflexivity|apply orb_true_r].
Qed.

Lemma process_early_return_witness :
  exists s',
    process Release (set_bypass true example_analyzer)
      example_left example_right example_out example_out
    = Ok (s', example_left ++ drop (length example_left) example_out,
              example_right ++ drop (length example_right) example_out)
    /\ in_mono s' = in_mono (set_bypass true example_analyzer)
    /\ real_input s' = real_input (set_bypass true example_analyzer)
    /\ s' = set_bypass true example_analyzer.
Proof.
  apply (process_early_return Release (set_bypass true example_analyzer));
    [reflexivity | vm_compute; congruence | vm_compute; congruence |].
  left; reflexivity.
Defined.

(** ** The sliding mono buffer *)

Lemma in_mono_ingest (left_in right_in : list f32) (s : Spectrum) :
  in_mono (ingest left_in right_in s)
  = drop (length left_in) (in_mono s) ++ downmix left_in right_in.
Proof. unfold ingest. destruct s, send_notifications0; reflexivity. Qed.

Lemma real_input_ingest (left_in right_in : list f32) (s : Spectrum) :
  real_input (ingest left_in right_in s)
  = windowed (in_mono (ingest left_in right_in s)) (hann_window s).
Proof. unfold ingest. destruct s, send_notifications0; reflexivity. Qed.

(** C4 (shift and recency).  A legal call that is not bypassed, with M
    frames and the mono buffer B before it, leaves a mono buffer of length
    N whose first N-M entries are B[M..N) and whose last M entries are
    0.5 * (left_in[k] + right_in[k]) for k in [0, M). *)
Theorem process_shifts_in (b : build) (s : Spectrum)
    (left_in right_in left_out right_out : list f32) :
  legal_call s left_in right_in left_out right_out ->
  bypass s = false -> fftw_ready s = true ->
  exists s' left_out' right_out',
    process b s left_in right_in left_out right_out
    = Ok (s', left_out', right_out')
    /\ size (in_mono s') = n_bands
    /\ in_mono s' = drop (length left_in) (in_mono s) ++ downmix left_in right_in
    /\ (forall k : nat,
          Z.of_nat k < n_bands - size left_in ->
          in_mono s' !! k = in_mono s !! (length left_in + k)%nat)
    /\ (forall (k : nat) (l r : f32),
          left_in !! k = Some l -> right_in !! k = Some r ->
          in_mono s' !! (Z.to_nat (n_bands - size left_in) + k)%nat
          = Some (F32.mul F32.half (F32.add l r))).
Proof.
  intros Hlegal Hby Hready.
  exists (ingest left_in right_in s). do 2 eexists.
  split; [apply process_active; assumption|].
  destruct Hlegal as [_ Hlr HM _ _ Hmono _ _].
  rewrite in_mono_ingest.
  assert (Hmix : length (downmix left_in right_in) = length left_in)
    by (unfold downmix; rewrite length_zip_with; unfold size in *; lia).
  assert (Hdrop : length (drop (length left_in) (in_mono s))
                  = Z.to_nat (n_bands - size left_in))
    by (rewrite length_drop; unfold size in *; lia).
  split; [|split; [reflexivity|split]].
  - unfold size in *. rewrite length_app. lia.
  - intros k Hk. rewrite lookup_app_l by lia. apply lookup_drop.
  - intros k l r Hl Hr. rewrite <- Hdrop.
    rewrite lookup_app_r by lia.
    replace (length _ + k - length _)%nat with k by lia.
    unfold downmix. apply lookup_zip_with_Some. eauto.
Qed.

Lemma process_shifts_in_witness :
  exists s' left_out' right_out',
    process Release example_analyzer
      example_left example_right example_out example_out
    = Ok (s', left_out', right_out')
    /\ size (in_mono s') = n_bands
    /\ in_mono s' = drop (length example_left) (in_mono example_analyzer)
                    ++ downmix example_left example_right
    /\ (forall k : nat,
          Z.of_nat k < n_bands - size example_left ->
          in_mono s' !! k
          = in_mono example_analyzer !! (length example_left + k)%nat)
    /\ (forall (k : nat) (l r : f32),
          example_left !! k = Some l -> example_right !! k = Some r ->
          in_mono s' !! (Z.to_nat (n_bands - size example_left) + k)%nat
          = Some (F32.mul F32.half (F32.add l r))).
Proof.
  apply (process_shifts_in Release example_analyzer
           example_left example_right example_out example_out);
    [apply example_call_legal; reflexivity | reflexivity | reflexivity].
Defined.

(** ** Notifications switched off *)



(** ** The settings listener *)

(** C8 (bypass follows "show").  On a change of the key "show" to the value
    [v], the listener takes the data mutex, stores [negb v] in [bypass]
    while it holds the mutex, and releases it; no other member of the
    analyzer changes.  While another thread holds the mutex the listener
    waits, and stores nothing. *)
Theorem show_changed_sets_bypass (v : bool) (s : Spectrum) :
  on_show_changed v s
  = (held <- lock s;; Ok (unlock (set_bypass (negb v) held)))
  /\ (data_mutex s = true -> on_show_changed v s = Fail WouldBlock)
  /\ (data_mutex s = false ->
      exists held s',
        lock s = Ok held /\ data_mutex held = true
        /\ on_show_changed v s = Ok (unlock (set_bypass (negb v) held))
        /\ on_show_changed v s = Ok s'
        /\ bypass s' = negb v /\ bypass_only s s').
Proof.
  assert (Hv : (gboolean v =? 0) = negb v) by (destruct v; reflexivity).
  split; [|split].
  - unfold on_show_changed. rewrite Hv. reflexivity.
  - intros Hm. unfold on_show_changed, lock. rewrite Hm. reflexivity.
  - intros Hm. exists (set_data_mutex true s), (set_bypass (negb v) s).
    unfold on_show_changed, lock, bypass_only. rewrite Hm. cbn [bind].
    rewrite Hv. destruct s; simpl in *; subst. repeat split.
Qed.

Lemma show_changed_sets_bypass_witness :
  on_show_changed false (set_data_mutex true example_analyzer)
  = Fail WouldBlock
  /\ exists held s',
       lock example_analyzer = Ok held /\ data_mutex held = true
       /\ on_show_changed false example_analyzer
          = Ok (unlock (set_bypass (negb false) held))
       /\ on_show_changed false example_analyzer = Ok s'
       /\ bypass s' = negb false /\ bypass_only example_analyzer s'.
Proof.
  split.
  - apply (show_changed_sets_bypass false
             (set_data_mutex true example_analyzer)). reflexivity.
  - apply (show_changed_sets_bypass false example_analyzer). reflexivity.
Defined.

(** ** The deferred task *)

Lemma power_loop_ok (c : list (f32 * f32)) (out : list f64) :
  size out <= size c -> size out < 2 ^ 32 ->
  for_loop 32 0 (size out) (power_body (Live c) (size out)) out
  = Ok (bin_power (size out) <$> take (length out) c).
Proof.
  intros Hc Hout.
  set (src := bin_power (size out) <$> take (length out) c).
  assert (Hsrc : length src = length out)
    by (unfold src; rewrite length_fmap, length_take; unfold size in *; lia).
  pose proof (for_loop_fill 32 (power_body (Live c) (size out)) []
                src out []) as H.
  simpl in H. rewrite !app_nil_r in H.
  replace (size src) with (size out) in H by (unfold size; lia).
  apply H; clear H.
  - lia.
  - assumption.
  - lia.
  - intros n x Hx. pose proof (lookup_lt_Some _ _ _ Hx) as Hn.
    unfold src in Hx. rewrite list_lookup_fmap in Hx.
    destruct (take (length out) c !! n) as [bin|] eqn:Hbin; [|discriminate].
    injection Hx as <-.
    rewrite lookup_take_lt in Hbin by lia.
    unfold power_body, rd_complex.
    rewrite (rd_ok _ _ bin) by (rewrite ?Nat2Z.id; auto; lia).
    cbn [bind]. rewrite wr_ok.
    + rewrite Nat2Z.id. reflexivity.
    + unfold size. rewrite !length_app, length_take, length_drop. simpl. lia.
Qed.

Section Task.
Variable dft : list f32 -> Z -> f32 * f32.

Lemma size_dft_bins (input : list f32) :
size (dft_bins dft input) = n_bands / 2 + 1.
Proof.
unfold dft_bins, size. rewrite length_fmap, length_seq.
apply Z2Nat.id. vm_compute. discriminate.
Qed.

Lemma lookup_dft_bins (input : list f32) (i : nat) :
Z.of_nat i < n_bands / 2 + 1 ->
dft_bins dft input !! i = Some (dft input (Z.of_nat i)).
Proof.
intros Hi. unfold dft_bins. rewrite list_lookup_fmap.
rewrite lookup_seq_lt by lia. reflexivity.
Qed.

(** What a task that is not bypassed does on a live analyzer. *)
Lemma fft_task_runs (s : Spectrum) (c : list (f32 * f32)) :
bypass s = false -> plan s = true -> complex_output s = Live c ->
n_bands <= size (real_input s) -> n_bands / 2 + 1 <= size c ->
size (output s) = n_bands / 2 + 1 ->
fft_task dft s
= Ok (emit_power
        (set_output (spectrum_of dft (real_input s))
           (set_complex_output
              (Live (dft_bins dft (real_input s)
                     ++ drop (length (dft_bins dft (real_input s))) c)) s))).
Proof.
intros Hby Hplan Hc Hreal Hsize Hout.
unfold fft_task, fftwf_execute. rewrite Hby, Hplan, Hc.
rewrite (proj2 (Z.leb_le _ _)) by assumption.
pose proof (size_dft_bins (real_input s)) as Hbins.
unfold spectrum_of.
generalize dependent (dft_bins dft (real_input s)). intros bins Hbins.
rewrite copy_ok by lia. cbn [bind].
change (output (set_complex_output ?c s)) with (output s).
change (complex_output (set_complex_output ?c s)) with c.
rewrite power_loop_ok.
- cbn [bind]. do 3 f_equal. rewrite Hout. f_equal.
  rewrite take_app_length'; [reflexivity|]. unfold size in *. lia.
- unfold size in *. rewrite length_app. lia.
- rewrite Hout. reflexivity.
Qed.
End Task.

(** C5 (power per bin).  A task that runs on a live analyzer emits one
    power signal with exactly N/2+1 points, and point [i] is
    (re * re + im * im) / (N/2+1)^2 for the bin (re, im) = [dft real_input i]:
    the products, the sum and the quotient are binary32 operations, the
    divisor is (N/2+1)^2 converted to [float], the result is widened to
    [double]. *)
Theorem fft_task_power (dft : list f32 -> Z -> f32 * f32) (s : Spectrum)
    (c : list (f32 * f32)) :
  bypass s = false -> plan s = true -> complex_output s = Live c ->
  n_bands <= size (real_input s) -> n_bands / 2 + 1 <= size c ->
  size (output s) = n_bands / 2 + 1 ->
  exists s' spectrum,
    fft_task dft s = Ok s'
    /\ power s' = power s ++ [(rate s, n_bands / 2 + 1, spectrum)]
    /\ size spectrum = n_bands / 2 + 1
    /\ forall i : Z, 0 <= i < n_bands / 2 + 1 ->
         rd spectrum i
         = Ok (F64.of_f32
                 (F32.div
                    (F32.add (F32.mul (fst (dft (real_input s) i))
                                      (fst (dft (real_input s) i)))
                             (F32.mul (snd (dft (real_input s) i))
                                      (snd (dft (real_input s) i))))
                    (F32.of_Z ((n_bands / 2 + 1) * (n_bands / 2 + 1))))).
Proof.
  intros Hby Hplan Hc Hreal Hsize Hout.
  eexists. exists (spectrum_of dft (real_input s)).
  split; [apply (fft_task_runs dft s c); assumption|].
  assert (Hlen : size (spectrum_of dft (real_input s)) = n_bands / 2 + 1).
  { unfold spectrum_of, size. rewrite length_fmap. apply size_dft_bins. }
  split; [|split; [exact Hlen|]].
  - unfold emit_power. simpl. rewrite Hlen. reflexivity.
  - intros i Hi. apply rd_ok; [lia|].
    unfold spectrum_of. rewrite list_lookup_fmap.
    rewrite lookup_dft_bins by lia. rewrite Z2Nat.id by lia. reflexivity.
Qed.

Lemma fft_task_power_witness :
  exists s' spectrum,
    fft_task example_dft example_analyzer = Ok s'
    /\ power s' = power example_analyzer
                  ++ [(rate example_analyzer, n_bands / 2 + 1, spectrum)]
    /\ size spectrum = n_bands / 2 + 1
    /\ forall i : Z, 0 <= i < n_bands / 2 + 1 ->
         rd spectrum i
         = Ok (F64.of_f32
                 (F32.div
                    (F32.add
                       (F32.mul
                          (fst (example_dft (real_input example_analyzer) i))
                          (fst (example_dft (real_input example_analyzer) i)))
                       (F32.mul
                          (snd (example_dft (real_input example_analyzer) i))
                          (snd (example_dft (real_input example_analyzer) i))))
                    (F32.of_Z ((n_bands / 2 + 1) * (n_bands / 2 + 1))))).
Proof.
  apply (fft_task_power example_dft example_analyzer
           (resize n_bands (F32.zero, F32.zero)));
    try reflexivity; vm_compute; congruence.
Defined.

(** The divisor: (N/2+1)^2 = 16785409 is not a binary32 value, the
    conversion to [float] gives 16785408. *)
Example divisor_as_float :
  (n_bands / 2 + 1) * (n_bands / 2 + 1) = 16785409
  /\ F32.of_Z ((n_bands / 2 + 1) * (n_bands / 2 + 1)) = F32.of_Z 16785408.
Proof. split; reflexivity. Qed.

(** ** Bypass *)

(** C6 (bypass respected).  With [bypass] set, any finite sequence of
    [process] calls, with runs of waiting tasks of the main loop in
    between, returns without emitting a power signal and without posting a
    task. *)
Theorem bypass_emits_nothing (b : build) (dft : list f32 -> Z -> f32 * f32)
    (acts : list action) (s : Spectrum) :
  Forall spans_fit acts -> bypass s = true -> data_mutex s = false ->
  exists s',
    run b dft acts s = Ok s'
    /\ power s' = power s /\ (idle_queue s' <= idle_queue s)%nat
    /\ bypass s' = true.
Proof.
  intros Hfit. revert s. induction Hfit as [|a acts Ha _ IH]; intros s Hby Hm.
  - exists s. repeat split; try assumption; lia.
  - destruct a as [li ri lo ro|]; cbn [run perform].
    + destruct Ha as [Hl Hr].
      rewrite process_early by (rewrite ?Hby; auto). cbn [bind fst].
      apply IH; assumption.
    + unfold run_idle. destruct (idle_queue s) as [|n] eqn:Hq.
      * cbn [bind]. destruct (IH s Hby Hm) as (s' & Hrun & Hp & Hi & Hb).
        exists s'. repeat split; try assumption. lia.
      * unfold fft_task.
        change (bypass (set_idle_queue n s)) with (bypass s).
        rewrite Hby. cbn [bind].
        destruct (IH (set_idle_queue n s) Hby Hm) as (s' & Hrun & Hp & Hi & Hb).
        exists s'. repeat split; try assumption. simpl in Hi. lia.
Qed.

Lemma bypass_emits_nothing_witness :
  exists s',
    run Debug example_dft (replicate 10 example_call ++ [Idle])
      (set_bypass true example_analyzer) = Ok s'
    /\ power s' = power (set_bypass true example_analyzer)
    /\ (idle_queue s' <= idle_queue (set_bypass true example_analyzer))%nat
    /\ bypass s' = true.
Proof.
  apply (bypass_emits_nothing Debug example_dft
           (replicate 10 example_call ++ [Idle])
           (set_bypass true example_analyzer)); [|reflexivity..].
  repeat constructor; vm_compute; congruence.
Defined.

(** ** Teardown *)

Lemma destroy_live (s : Spectrum) (c : list (f32 * f32)) :
  data_mutex s = false -> plan s = true -> complex_output s = Live c ->
  exists s',
    destroy s = Ok s'
    /\ fftw_ready s' = false /\ plan s' = false /\ complex_output s' = Freed
    /\ bypass s' = bypass s /\ data_mutex s' = false.
Proof.
  intros Hm Hplan Hc. unfold destroy, destroy_begin, disconnect_from_pw, lock.
  destruct s; simpl in *; subst.
  destruct connected_to_pw0; simpl; eexists; repeat split.
Qed.

(** C2 (a task after teardown).  The deferred task tests [bypass] only: it
    does not read [fftw_ready].  Run after the destructor, with [bypass]
    clear, it calls [fftwf_execute] on the destroyed plan instead of
    returning. *)
Theorem fft_task_after_destroy (dft : list f32 -> Z -> f32 * f32)
    (s : Spectrum) (c : list (f32 * f32)) :
  data_mutex s = false -> plan s = true -> complex_output s = Live c ->
  bypass s = false ->
  exists s',
    destroy s = Ok s' /\ fftw_ready s' = false
    /\ fft_task dft s' = Fail UseAfterFree
    /\ fft_task dft s' <> Ok s'.
Proof.
  intros Hm Hplan Hc Hby.
  destruct (destroy_live s c Hm Hplan Hc)
    as (s' & Hd & Hready & Hplan' & _ & Hby' & _).
  exists s'. split; [assumption|]. split; [assumption|].
  assert (Htask : fft_task dft s' = Fail UseAfterFree).
  { unfold fft_task, fftwf_execute. rewrite Hby', Hby, Hplan'. reflexivity. }
  split; [assumption|]. rewrite Htask. discriminate.
Qed.

Lemma fft_task_after_destroy_witness :
  exists s',
    destroy example_analyzer = Ok s' /\ fftw_ready s' = false
    /\ fft_task example_dft s' = Fail UseAfterFree
    /\ fft_task example_dft s' <> Ok s'.
Proof.
  apply (fft_task_after_destroy example_dft example_analyzer
           (resize n_bands (F32.zero, F32.zero))); reflexivity.
Defined.

(** Between the store to [fftw_ready] and the release of the array and the
    plan, the task still runs the transform and emits. *)
Lemma fft_task_during_destroy (dft : list f32 -> Z -> f32 * f32)
    (s : Spectrum) (c : list (f32 * f32)) :
  data_mutex s = false -> bypass s = false -> plan s = true ->
  complex_output s = Live c -> n_bands <= size (real_input s) ->
  n_bands / 2 + 1 <= size c -> size (output s) = n_bands / 2 + 1 ->
  exists s1 s2,
    destroy_begin s = Ok s1 /\ fftw_ready s1 = false
    /\ fft_task dft s1 = Ok s2
    /\ power s2 = power s ++ [(rate s, n_bands / 2 + 1,
                               spectrum_of dft (real_input s))].
Proof.
  intros Hm Hby Hplan Hc Hreal Hsize Hout.
  assert (Hbegin : exists s1, destroy_begin s = Ok s1 /\ fftw_ready s1 = false
            /\ bypass s1 = false /\ plan s1 = true
            /\ complex_output s1 = Live c /\ real_input s1 = real_input s
            /\ output s1 = output s /\ power s1 = power s /\ rate s1 = rate s).
  { unfold destroy_begin, disconnect_from_pw, lock.
    destruct s; simpl in *; subst.
    destruct connected_to_pw0; simpl; eexists; repeat split. }
  destruct Hbegin as (s1 & Hb & Hr & Hby1 & Hplan1 & Hc1 & Hri & Ho & Hp & Hrate).
  exists s1. eexists. split; [exact Hb|]. split; [exact Hr|].
  split.
  - apply (fft_task_runs dft s1 c); rewrite ?Hri, ?Ho; assumption.
  - unfold emit_power. simpl. rewrite Hp, Hrate, Hri.
    assert (Hn : size (spectrum_of dft (real_input s)) = n_bands / 2 + 1)
      by (unfold spectrum_of, size; rewrite length_fmap; apply size_dft_bins).
    rewrite Hn. reflexivity.
Qed.

(** ** Chunks longer than the buffer *)

(** C1, as stated, fails: with 9000 frames the release build does not clamp
    to the 8192 the buffer holds, its first loop runs out of [in_mono]; and
    with [bypass] set the debug build does not abort. *)
Lemma oversize_chunk_not_clamped :
  process Release example_analyzer
    oversize_chunk oversize_chunk oversize_chunk oversize_chunk
  = Fail OutOfBounds
  /\ process Debug (set_bypass true example_analyzer)
       oversize_chunk oversize_chunk oversize_chunk oversize_chunk
     = Ok (set_bypass true example_analyzer, oversize_chunk, oversize_chunk).
Proof. split; vm_compute; reflexivity. Qed.

(** C1, amended.  For a chunk of M > N frames: when [bypass] is set or
    [fftw_ready] is false, either build returns after the pass-through copy
    and leaves the analyzer as it was; otherwise a debug build stops at an
    assertion, and a release build, which has no clamp, computes the loop
    bound N - M modulo 2^64 and reads [in_mono] at index M, outside the
    buffer. *)
Theorem process_oversize (s : Spectrum)
    (left_in right_in left_out right_out : list f32) :
  data_mutex s = false ->
  size left_in <= size left_out -> size right_in <= size right_out ->
  n_bands < size left_in < size_max -> size (in_mono s) = n_bands ->
  (bypass s || negb (fftw_ready s) = true ->
   forall b, process b s left_in right_in left_out right_out
             = Ok (s, left_in ++ drop (length left_in) left_out,
                      right_in ++ drop (length right_in) right_out))
  /\ (bypass s || negb (fftw_ready s) = false ->
      process Debug s left_in right_in left_out right_out
      = Fail AssertionFailed
      /\ process Release s left_in right_in left_out right_out
         = Fail OutOfBounds).
Proof.
  intros Hm Hl Hr HM Hmono. split.
  - intros Hearly b. apply process_early; assumption.
  - intros Hgo. unfold process.
    destruct (unlock_lock s Hm) as [-> _]. cbn [bind].
    rewrite !copy_ok by assumption. cbn [bind].
    change (bypass (set_data_mutex true s)) with (bypass s).
    change (fftw_ready (set_data_mutex true s)) with (fftw_ready s).
    change (in_mono (set_data_mutex true s)) with (in_mono s).
    rewrite Hgo. split.
    + unfold assert.
      destruct (size left_in =? size right_in); cbn [bind]; [|reflexivity].
      rewrite (proj2 (Z.leb_gt _ _)) by lia. reflexivity.
    + cbn [assert bind].
      rewrite (for_loop_first_fails 64 _ _ 0 (in_mono s) OutOfBounds).
      * reflexivity.
      * unfold size_sub, wrap.
        pose proof (Z.mod_pos_bound (n_bands - size left_in) size_max).
        assert (Hneq : (n_bands - size left_in) mod size_max <> 0).
        { intros H0. apply Z.mod_divide in H0; [|unfold size_max; lia].
          destruct H0 as [q Hq]. unfold n_bands, size_max in *. lia. }
        unfold size_max in *. lia.
      * unfold shift_body, size_add. rewrite Z.add_0_r.
        rewrite wrap_small by (unfold n_bands in *; lia).
        rewrite rd_out_of_bounds by lia. reflexivity.
Qed.

Lemma process_oversize_witness :
  (bypass example_analyzer || negb (fftw_ready example_analyzer) = true ->
   forall b, process b example_analyzer
               oversize_chunk oversize_chunk oversize_chunk oversize_chunk
             = Ok (example_analyzer,
                   oversize_chunk ++ drop (length oversize_chunk) oversize_chunk,
                   oversize_chunk ++ drop (length oversize_chunk) oversize_chunk))
  /\ (bypass example_analyzer || negb (fftw_ready example_analyzer) = false ->
      process Debug example_analyzer
        oversize_chunk oversize_chunk oversize_chunk oversize_chunk
      = Fail AssertionFailed
      /\ process Release example_analyzer
           oversize_chunk oversize_chunk oversize_chunk oversize_chunk
         = Fail OutOfBounds).
Proof.
  apply (process_oversize example_analyzer
           oversize_chunk oversize_chunk oversize_chunk oversize_chunk);
    try reflexivity; try (vm_compute; congruence).
  split; reflexivity.
Defined.

(** ** Construction *)

(** The constructor returns an analyzer whose buffers have [n_bands]
    elements and whose window holds [hann n] at every index [n]. *)
Lemma construct_ok (cosf : f32 -> f32) (bypass0 send0 connected0 : bool)
    (rate0 : Z) (alloc : option (Z -> f32 * f32)) (planned : bool) :
  exists s,
    construct cosf bypass0 send0 connected0 rate0 alloc planned = Ok s
    /\ hann_window s
       = (fun k => hann cosf (Z.of_nat k)) <$> seq 0 (Z.to_nat n_bands)
    /\ size (in_mono s) = n_bands /\ size (real_input s) = n_bands
    /\ size (hann_window s) = n_bands /\ size (output s) = n_bands / 2 + 1
    /\ fftw_ready s = true /\ data_mutex s = false.
Proof.
  unfold construct.
  set (src := (fun k => hann cosf (Z.of_nat k)) <$> seq 0 (Z.to_nat n_bands)).
  assert (Hsrc : size src = n_bands)
    by (unfold src, size; rewrite length_fmap, length_seq; reflexivity).
  assert (Hold : length (resize n_bands F32.zero) = length src)
    by (unfold src, resize;
        rewrite length_replicate, length_fmap, length_seq; reflexivity).
  pose proof (for_loop_rewrite 64 (fun n v => wr v n (hann cosf n)) src
                (resize n_bands F32.zero)) as H.
  rewrite Hsrc in H. rewrite H; [| lia | reflexivity | exact Hold |]; clear H.
  - cbn [bind]. eexists. split; [reflexivity|].
    cbn [hann_window in_mono real_input output fftw_ready data_mutex].
    repeat split; try assumption; unfold size, resize;
      rewrite length_replicate; reflexivity.
  - intros n x Hx. pose proof (lookup_lt_Some _ _ _ Hx) as Hn.
    unfold src in Hx. rewrite list_lookup_fmap in Hx.
    assert (Hn' : (n < Z.to_nat n_bands)%nat)
      by (unfold src in Hn; rewrite length_fmap, length_seq in Hn; exact Hn).
    rewrite lookup_seq_lt in Hx by assumption. injection Hx as <-.
    rewrite wr_ok; [rewrite Nat2Z.id; reflexivity|].
    unfold size. rewrite length_app, length_take, length_drop, Hold. lia.
Qed.

(** With a cosine that is 1 at 0, the first coefficient is 0. *)
Lemma hann_first (cosf : f32 -> f32) :
  cosf F32.zero = F32.one -> hann cosf 0 = F32.zero.
Proof.
  intros H. unfold hann.
  change (F32.div (F32.mul (F32.mul (F32.of_Z 2) pi_f32) (F32.of_Z 0))
                  (F32.of_Z (size_sub n_bands 1))) with F32.zero.
  rewrite H. reflexivity.
Qed.

(** * Further properties of the analyzer *)

(** ** What one call of [process] touches *)

Lemma ingest_members (left_in right_in : list f32) (s : Spectrum) :
  data_mutex s = false ->
  process_frame s (ingest left_in right_in s)
  /\ idle_queue (ingest left_in right_in s)
     = (if send_notifications s then S (idle_queue s) else idle_queue s).
Proof.
  unfold ingest, process_frame.
  destruct s; simpl. intros ->. destruct send_notifications0; simpl;
    repeat split; reflexivity.
Qed.

(** X1 (what [process] leaves alone).  A legal call, bypassed or not,
    returns with the mutex released and with the window, [output],
    [complex_output], the plan, the flags, the rate and the emitted power
    signals as they were; it posts at most one task. *)
Theorem process_leaves_alone (b : build) (s : Spectrum)
    (left_in right_in left_out right_out : list f32) :
  legal_call s left_in right_in left_out right_out ->
  exists s' left_out' right_out',
    process b s left_in right_in left_out right_out
    = Ok (s', left_out', right_out')
    /\ process_frame s s'
    /\ (idle_queue s <= idle_queue s' <= S (idle_queue s))%nat.
Proof.
  intros Hlegal. pose proof (legal_mutex _ _ _ _ _ Hlegal) as Hm.
  destruct (bypass s || negb (fftw_ready s)) eqn:Hearly.
  - exists s. do 2 eexists. split.
    + apply process_early; try assumption; apply Hlegal.
    + split; [|lia]. unfold process_frame. repeat split; try reflexivity.
      assumption.
  - apply orb_false_elim in Hearly as [Hby Hready].
    apply negb_false_iff in Hready.
    exists (ingest left_in right_in s). do 2 eexists.
    split; [apply process_active; assumption|].
    destruct (ingest_members left_in right_in s Hm) as [Hframe Hq].
    split; [assumption|]. rewrite Hq.
    destruct (send_notifications s); lia.
Qed.

Lemma process_leaves_alone_witness :
  exists s' left_out' right_out',
    process Debug example_analyzer
      example_left example_right example_out example_out
    = Ok (s', left_out', right_out')
    /\ process_frame example_analyzer s'
    /\ (idle_queue example_analyzer <= idle_queue s'
        <= S (idle_queue example_analyzer))%nat.
Proof.
  apply (process_leaves_alone Debug example_analyzer
           example_left example_right example_out example_out).
  apply example_call_legal; reflexivity.
Defined.

(** X2 (windowing).  After a legal call that is not bypassed, [real_input]
    has [n_bands] elements and holds, at every index, the product of the new
    mono buffer and the window at that index. *)
Theorem process_windows_buffer (b : build) (s : Spectrum)
    (left_in right_in left_out right_out : list f32) :
  legal_call s left_in right_in left_out right_out ->
  bypass s = false -> fftw_ready s = true ->
  exists s' left_out' right_out',
    process b s left_in right_in left_out right_out
    = Ok (s', left_out', right_out')
    /\ size (real_input s') = n_bands
    /\ forall (n : nat) (m h : f32),
         in_mono s' !! n = Some m -> hann_window s !! n = Some h ->
         real_input s' !! n = Some (F32.mul m h).
Proof.
  intros Hlegal Hby Hready.
  exists (ingest left_in right_in s). do 2 eexists.
  split; [apply process_active; assumption|].
  rewrite real_input_ingest, in_mono_ingest.
  destruct Hlegal as [_ Hlr HM _ _ Hmono _ Hwin].
  split.
  - unfold windowed, size. rewrite length_zip_with, length_app, length_drop.
    unfold downmix. rewrite length_zip_with. unfold size in *. lia.
  - intros n m h Hm Hh. unfold windowed.
    apply lookup_zip_with_Some. eauto.
Qed.

Lemma process_windows_buffer_witness :
  exists s' left_out' right_out',
    process Release example_analyzer
      example_left example_right example_out example_out
    = Ok (s', left_out', right_out')
    /\ size (real_input s') = n_bands
    /\ forall (n : nat) (m h : f32),
         in_mono s' !! n = Some m ->
         hann_window example_analyzer !! n = Some h ->
         real_input s' !! n = Some (F32.mul m h).
Proof.
  apply (process_windows_buffer Release example_analyzer
           example_left example_right example_out example_out);
    [apply example_call_legal; reflexivity | reflexivity | reflexivity].
Defined.

(** X3 (empty chunk).  A call with no frames, on an analyzer that is not
    bypassed, leaves the mono buffer and the output spans as they are; it
    still recomputes [real_input] from the buffer and, with notifications
    on, still posts a task. *)
Theorem process_empty_chunk (b : build) (s : Spectrum)
    (left_out right_out : list f32) :
  data_mutex s = false -> sized s -> bypass s = false -> fftw_ready s = true ->
  exists s',
    process b s [] [] left_out right_out = Ok (s', left_out, right_out)
    /\ in_mono s' = in_mono s
    /\ real_input s' = windowed (in_mono s) (hann_window s)
    /\ idle_queue s'
       = (if send_notifications s then S (idle_queue s) else idle_queue s).
Proof.
  intros Hm [Hmono Hreal Hwin] Hby Hready.
  exists (ingest [] [] s).
  rewrite process_active; try assumption.
  - split; [reflexivity|].
    rewrite real_input_ingest, in_mono_ingest. simpl.
    rewrite app_nil_r. repeat split.
    apply (ingest_members [] [] s Hm).
  - pose proof (size_nonneg left_out). pose proof (size_nonneg right_out).
    split; try assumption; try reflexivity; unfold size at 1; simpl;
      unfold n_bands; lia.
Qed.

Lemma process_empty_chunk_witness :
  exists s',
    process Debug example_analyzer [] [] example_out example_out
    = Ok (s', example_out, example_out)
    /\ in_mono s' = in_mono example_analyzer
    /\ real_input s'
       = windowed (in_mono example_analyzer) (hann_window example_analyzer)
    /\ idle_queue s'
       = (if send_notifications example_analyzer
          then S (idle_queue example_analyzer)
          else idle_queue example_analyzer).
Proof.
  apply (process_empty_chunk Debug example_analyzer example_out example_out);
    try reflexivity.
  split; reflexivity.
Defined.

(** X4 (full chunk).  A call with exactly [n_bands] frames replaces the
    whole mono buffer: what it held before has no influence on the result. *)
Theorem process_full_chunk (b : build) (s : Spectrum)
    (left_in right_in left_out right_out : list f32) :
  legal_call s left_in right_in left_out right_out ->
  bypass s = false -> fftw_ready s = true -> size left_in = n_bands ->
  exists s' left_out' right_out',
    process b s left_in right_in left_out right_out
    = Ok (s', left_out', right_out')
    /\ in_mono s' = downmix left_in right_in
    /\ real_input s' = windowed (downmix left_in right_in) (hann_window s).
Proof.
  intros Hlegal Hby Hready Hfull.
  exists (ingest left_in right_in s). do 2 eexists.
  split; [apply process_active; assumption|].
  rewrite real_input_ingest, in_mono_ingest.
  destruct Hlegal as [_ _ _ _ _ Hmono _ _].
  rewrite drop_ge by (unfold size in *; lia). split; reflexivity.
Qed.

Lemma process_full_chunk_witness :
  exists s' left_out' right_out',
    process Release example_analyzer
      full_chunk full_chunk full_chunk full_chunk
    = Ok (s', left_out', right_out')
    /\ in_mono s' = downmix full_chunk full_chunk
    /\ real_input s'
       = windowed (downmix full_chunk full_chunk)
           (hann_window example_analyzer).
Proof.
  apply (process_full_chunk Release example_analyzer
           full_chunk full_chunk full_chunk full_chunk);
    try reflexivity.
  split; try reflexivity; vm_compute; congruence.
Defined.

(** X5 (output span too short).  [process] does not check the output spans:
    when one of them is shorter than its input span, the copy runs past its
    end, in a debug and in a release build, bypassed or not. *)
Theorem process_overruns_short_output (b : build) (s : Spectrum)
    (left_in right_in left_out right_out : list f32) :
  data_mutex s = false ->
  size left_out < size left_in \/ size right_out < size right_in ->
  process b s left_in right_in left_out right_out = Fail OutOfBounds.
Proof.
  intros Hm Hshort. unfold process.
  destruct (unlock_lock s Hm) as [-> _]. cbn [bind]. unfold copy.
  destruct (size left_in <=? size left_out) eqn:Hl; cbn [bind];
    [|reflexivity].
  destruct (size right_in <=? size right_out) eqn:Hr; cbn [bind];
    [|reflexivity].
  apply Z.leb_le in Hl, Hr. lia.
Qed.

Lemma process_overruns_short_output_witness :
  process Debug (set_bypass true example_analyzer)
    example_left example_right example_out []
  = Fail OutOfBounds.
Proof.
  apply (process_overruns_short_output Debug
           (set_bypass true example_analyzer)); [reflexivity|].
  right. reflexivity.
Defined.

(** ** Input spans of different lengths *)

Section ForLoopFails.
Context {St : Type}.
Variables (bits hi : Z) (body : Z -> St -> outcome St).
Hypothesis bits_le : 0 <= bits <= 64.
Hypothesis hi_lt : hi < 2 ^ bits.

(** A loop whose bodies return up to round [k] and whose body fails in
    round [k] fails with that fault. *)
Lemma for_loop_fails_at (inv : Z -> St -> Prop) (k : Z) (f : fault) (s : St) :
  0 <= k < hi -> inv 0 s ->
  (forall n s, 0 <= n < k -> inv n s ->
               exists s', body n s = Ok s' /\ inv (n + 1) s') ->
  (forall s, inv k s -> body k s = Fail f) ->
  for_loop bits 0 hi body s = Fail f.
Proof.
  intros Hk Hinv Hbody Hfail.
  assert (Hrounds : forall (j : nat) (n : Z) (s : St),
             0 <= n <= k -> Z.of_nat j = k - n -> inv n s ->
             rounds (S j) (for_round bits hi body) (n, s) = Stop f).
  { induction j as [|j IH]; intros n s0 Hn Hj Hs0.
    - assert (n = k) by lia; subst n. simpl. unfold for_round; simpl.
      rewrite (proj2 (Z.ltb_lt k hi)) by lia.
      rewrite (Hfail s0 Hs0). reflexivity.
    - destruct (Hbody n s0) as (s1 & Hs1 & Hinv1); [lia|assumption|].
      change (rounds (S (S j)) (for_round bits hi body) (n, s0))
        with (and_then (for_round bits hi body (n, s0))
                (rounds (S j) (for_round bits hi body))).
      unfold for_round at 1; simpl fst; simpl snd.
      rewrite (proj2 (Z.ltb_lt n hi)) by lia. rewrite Hs1.
      rewrite Z.mod_small by lia. apply IH; [lia|lia|assumption]. }
  unfold for_loop. rewrite rounds_pos_unary.
  pose proof (pow_bits_le bits bits_le).
  replace (Pos.to_nat (Z.to_pos size_max))
    with (S (Z.to_nat k) + (Z.to_nat size_max - S (Z.to_nat k)))%nat.
  - rewrite rounds_settled; rewrite (Hrounds (Z.to_nat k) 0 s);
      try reflexivity; try discriminate; try assumption; lia.
  - rewrite <- Z2Nat.inj_pos, Z2Pos.id by (unfold size_max; lia). lia.
Qed.
End ForLoopFails.

(** A release build goes on with a right span at least as long as the left
    one. *)
Lemma process_release_active (s : Spectrum)
    (left_in right_in left_out right_out : list f32) :
  data_mutex s = false -> sized s ->
  size left_in <= size right_in -> size left_in <= n_bands ->
  size left_in <= size left_out -> size right_in <= size right_out ->
  bypass s = false -> fftw_ready s = true ->
  process Release s left_in right_in left_out right_out
  = Ok (ingest left_in right_in s,
        left_in ++ drop (length left_in) left_out,
        right_in ++ drop (length right_in) right_out).
Proof.
  intros Hm [Hmono Hreal Hwin] Hlr HM Hlo Hro Hby Hready. unfold process.
  destruct (unlock_lock s Hm) as [-> _]. cbn [bind].
  rewrite !copy_ok by assumption. cbn [bind assert].
  change (bypass (set_data_mutex true s)) with (bypass s).
  change (fftw_ready (set_data_mutex true s)) with (fftw_ready s).
  change (in_mono (set_data_mutex true s)) with (in_mono s).
  change (real_input (set_data_mutex true s)) with (real_input s).
  change (hann_window (set_data_mutex true s)) with (hann_window s).
  rewrite Hby, Hready. cbn [orb negb bind].
  pose proof (size_nonneg left_in) as Hnn.
  pose proof (shift_loop_ok (in_mono s) (size left_in)) as Hshift.
  rewrite Hmono in Hshift.
  rewrite Hshift by (unfold n_bands, size_max in *; lia). cbn [bind].
  clear Hshift.
  rewrite downmix_loop_ok.
  - cbn [bind].
    replace (Z.to_nat (size left_in)) with (length left_in)
      by (unfold size; lia).
    rewrite (take_ge (downmix left_in right_in))
      by (unfold downmix; rewrite length_zip_with; unfold size in *; lia).
    rewrite window_loop_ok; [|unfold downmix, size in *..].
    + cbn [bind]. f_equal. f_equal. f_equal. unfold ingest.
      destruct s; simpl in *; subst. destruct send_notifications0; reflexivity.
    + rewrite length_app, length_drop, length_zip_with. lia.
    + assumption.
    + assumption.
  - lia.
  - unfold size in *. rewrite length_drop. lia.
  - rewrite length_drop. unfold size in *. lia.
Qed.

Lemma downmix_surplus (left_in right_in : list f32) :
  downmix left_in right_in
  = downmix left_in (take (length left_in) right_in).
Proof.
  unfold downmix. revert right_in.
  induction left_in as [|l left_in IH]; intros [|r right_in]; simpl;
    try reflexivity.
  f_equal. apply IH.
Qed.

(** X6 (right span longer than the left one).  A debug build stops at the
    assertion on the span lengths.  A release build returns: it copies all of
    [right_in] to [right_out], but mixes down only as many frames as
    [left_in] has, so the surplus of [right_in] never reaches the mono
    buffer. *)
Theorem process_longer_right (s : Spectrum)
    (left_in right_in left_out right_out : list f32) :
  data_mutex s = false -> sized s ->
  size left_in < size right_in -> size left_in <= n_bands ->
  size left_in <= size left_out -> size right_in <= size right_out ->
  bypass s = false -> fftw_ready s = true ->
  process Debug s left_in right_in left_out right_out = Fail AssertionFailed
  /\ exists s',
       process Release s left_in right_in left_out right_out
       = Ok (s', left_in ++ drop (length left_in) left_out,
                 right_in ++ drop (length right_in) right_out)
       /\ in_mono s' = drop (length left_in) (in_mono s)
                       ++ downmix left_in (take (length left_in) right_in).
Proof.
  intros Hm Hsized Hlr HM Hlo Hro Hby Hready. split.
  - unfold process. destruct (unlock_lock s Hm) as [-> _]. cbn [bind].
    rewrite !copy_ok by assumption. cbn [bind].
    change (bypass (set_data_mutex true s)) with (bypass s).
    change (fftw_ready (set_data_mutex true s)) with (fftw_ready s).
    rewrite Hby, Hready. cbn [orb negb]. unfold assert at 1.
    rewrite (proj2 (Z.eqb_neq _ _)) by lia. reflexivity.
  - exists (ingest left_in right_in s). split.
    + apply process_release_active; try assumption. lia.
    + rewrite in_mono_ingest, <- downmix_surplus. reflexivity.
Qed.

Lemma process_longer_right_witness :
  process Debug example_analyzer
    (take 3 example_left) example_right example_out example_out
  = Fail AssertionFailed
  /\ exists s',
       process Release example_analyzer
         (take 3 example_left) example_right example_out example_out
       = Ok (s', take 3 example_left
                 ++ drop (length (take 3 example_left)) example_out,
                 example_right ++ drop (length example_right) example_out)
       /\ in_mono s'
          = drop (length (take 3 example_left)) (in_mono example_analyzer)
            ++ downmix (take 3 example_left)
                 (take (length (take 3 example_left)) example_right).
Proof.
  apply (process_longer_right example_analyzer
           (take 3 example_left) example_right example_out example_out);
    try reflexivity; try (vm_compute; congruence).
  split; reflexivity.
Defined.

(** X7 (right span shorter than the left one).  A debug build stops at the
    assertion on the span lengths; a release build shifts the mono buffer
    and then reads [right_in] past its end. *)
Theorem process_shorter_right (s : Spectrum)
    (left_in right_in left_out right_out : list f32) :
  data_mutex s = false -> sized s ->
  size right_in < size left_in -> size left_in <= n_bands ->
  size left_in <= size left_out -> size right_in <= size right_out ->
  bypass s = false -> fftw_ready s = true ->
  process Debug s left_in right_in left_out right_out = Fail AssertionFailed
  /\ process Release s left_in right_in left_out right_out
     = Fail OutOfBounds.
Proof.
  intros Hm [Hmono Hreal Hwin] Hlr HM Hlo Hro Hby Hready.
  unfold process. destruct (unlock_lock s Hm) as [-> _]. cbn [bind].
  rewrite !copy_ok by assumption. cbn [bind].
  change (bypass (set_data_mutex true s)) with (bypass s).
  change (fftw_ready (set_data_mutex true s)) with (fftw_ready s).
  change (in_mono (set_data_mutex true s)) with (in_mono s).
  rewrite Hby, Hready. cbn [orb negb]. split.
  - unfold assert at 1.
    rewrite (proj2 (Z.eqb_neq _ _)) by lia. reflexivity.
  - cbn [assert bind].
    pose proof (size_nonneg left_in) as Hnn.
    pose proof (size_nonneg right_in) as Hnr.
    pose proof (shift_loop_ok (in_mono s) (size left_in)) as Hshift.
    rewrite Hmono in Hshift.
    rewrite Hshift by (unfold n_bands, size_max in *; lia). cbn [bind].
    clear Hshift.
    rewrite (for_loop_fails_at 64 (size left_in) _ ltac:(lia)
               ltac:(change (2 ^ 64) with size_max;
                     unfold n_bands, size_max in *; lia)
               (fun _ v => size v = n_bands) (size right_in) OutOfBounds).
    + reflexivity.
    + lia.
    + unfold size in *. rewrite length_app, !length_drop. lia.
    + intros n v Hn Hv. unfold downmix_body.
      destruct (lookup_lt_is_Some_2 left_in (Z.to_nat n)) as [l Hl];
        [unfold size in *; lia|].
      destruct (lookup_lt_is_Some_2 right_in (Z.to_nat n)) as [r Hr];
        [unfold size in *; lia|].
      rewrite (rd_ok _ _ l), (rd_ok _ _ r) by (assumption || lia).
      cbn [bind]. unfold size_add, size_sub.
      rewrite (wrap_small (n_bands - _))
        by (unfold n_bands, size_max in *; lia).
      rewrite wrap_small by (unfold n_bands, size_max in *; lia).
      rewrite wr_ok by lia. eexists. split; [reflexivity|].
      unfold size in *. rewrite length_insert. assumption.
    + intros v Hv. unfold downmix_body.
      destruct (lookup_lt_is_Some_2 left_in (Z.to_nat (size right_in)))
        as [l Hl]; [unfold size in *; lia|].
      rewrite (rd_ok _ _ l) by (assumption || lia). cbn [bind].
      rewrite rd_out_of_bounds by lia. reflexivity.
Qed.

Lemma process_shorter_right_witness :
  process Debug example_analyzer
    example_left (take 3 example_right) example_out example_out
  = Fail AssertionFailed
  /\ process Release example_analyzer
       example_left (take 3 example_right) example_out example_out
     = Fail OutOfBounds.
Proof.
  apply (process_shorter_right example_analyzer
           example_left (take 3 example_right) example_out example_out);
    try reflexivity; try (vm_compute; congruence).
  split; reflexivity.
Defined.

(** ** [setup] *)

Lemma size_resize {A} (n : Z) (x : A) : 0 <= n -> size (resize n x) = n.
Proof. intros Hn. unfold size, resize. rewrite length_replicate. lia. Qed.

(** [setup] on buffers of the right size. *)
Lemma setup_eq (b : build) (s : Spectrum) :
  size (in_mono s) = n_bands -> size (real_input s) = n_bands ->
  setup b s
  = Ok (set_real_input (resize n_bands F32.zero)
          (set_in_mono (resize n_bands F32.zero) s)).
Proof.
  intros Hmono Hreal.
  assert (Hfill : forall v : list f32,
             size v = n_bands -> fill v F32.zero = resize n_bands F32.zero).
  { intros v Hv. unfold fill, resize. f_equal. unfold size in Hv. lia. }
  assert (Hassert : forall c, c = true -> assert b c = Ok tt)
    by (intros c ->; destruct b; reflexivity).
  unfold setup. cbn [in_mono real_input set_in_mono set_real_input].
  rewrite !Hfill by assumption.
  rewrite !Hassert
    by (rewrite size_resize by (unfold n_bands; lia); apply Z.eqb_refl).
  reflexivity.
Qed.

(** X8 (setup).  On buffers of [n_bands] elements [setup] returns in either
    build, takes no lock, leaves both buffers all zero and every other
    member as it was, and a second [setup] changes nothing. *)
Theorem setup_zeroes (b : build) (s : Spectrum) :
  size (in_mono s) = n_bands -> size (real_input s) = n_bands ->
  exists s',
    setup b s = Ok s'
    /\ in_mono s' = resize n_bands F32.zero
    /\ real_input s' = resize n_bands F32.zero
    /\ setup_frame s s'
    /\ setup b s' = Ok s'.
Proof.
  intros Hmono Hreal.
  assert (Hn : 0 <= n_bands) by (unfold n_bands; lia).
  eexists. split; [apply setup_eq; assumption|].
  split; [reflexivity|]. split; [reflexivity|]. split.
  - unfold setup_frame. destruct s; simpl. repeat split.
  - rewrite setup_eq.
    + destruct s; reflexivity.
    + apply (size_resize n_bands F32.zero Hn).
    + apply (size_resize n_bands F32.zero Hn).
Qed.

Lemma setup_zeroes_witness :
  exists s',
    setup Debug example_analyzer = Ok s'
    /\ in_mono s' = resize n_bands F32.zero
    /\ real_input s' = resize n_bands F32.zero
    /\ setup_frame example_analyzer s'
    /\ setup Debug s' = Ok s'.
Proof.
  apply (setup_zeroes Debug example_analyzer); reflexivity.
Defined.

(** X9 (zero padding).  The first call after [setup], with M <= N frames,
    leaves a mono buffer of N - M zeros followed by the M down-mixed
    frames: a chunk shorter than the buffer is padded with zeros in
    front. *)
Theorem setup_then_process (b : build) (s : Spectrum)
    (left_in right_in left_out right_out : list f32) :
  legal_call s left_in right_in left_out right_out ->
  bypass s = false -> fftw_ready s = true ->
  exists s0 s1 left_out' right_out',
    setup b s = Ok s0
    /\ process b s0 left_in right_in left_out right_out
       = Ok (s1, left_out', right_out')
    /\ in_mono s1
       = replicate (Z.to_nat (n_bands - size left_in)) F32.zero
         ++ downmix left_in right_in.
Proof.
  intros Hlegal Hby Hready.
  destruct Hlegal as [Hm Hlr HM Hlo Hro Hmono Hreal Hwin].
  assert (Hn : 0 <= n_bands) by (unfold n_bands; lia).
  pose proof (size_resize n_bands F32.zero Hn) as Hsize.
  exists (set_real_input (resize n_bands F32.zero)
            (set_in_mono (resize n_bands F32.zero) s)).
  exists (ingest left_in right_in
            (set_real_input (resize n_bands F32.zero)
               (set_in_mono (resize n_bands F32.zero) s))).
  do 2 eexists.
  split; [apply setup_eq; assumption|]. split.
  - apply process_active; [split|..]; assumption.
  - rewrite in_mono_ingest. cbn [in_mono set_real_input set_in_mono].
    unfold resize. rewrite drop_replicate. do 2 f_equal. unfold size. lia.
Qed.

Lemma setup_then_process_witness :
  exists s0 s1 left_out' right_out',
    setup Debug example_analyzer = Ok s0
    /\ process Debug s0 example_left example_right example_out example_out
       = Ok (s1, left_out', right_out')
    /\ in_mono s1
       = replicate (Z.to_nat (n_bands - size example_left)) F32.zero
         ++ downmix example_left example_right.
Proof.
  apply (setup_then_process Debug example_analyzer
           example_left example_right example_out example_out);
    [apply example_call_legal; reflexivity | reflexivity | reflexivity].
Defined.

(** ** Runs of calls *)

Lemma process_frame_trans (s1 s2 s3 : Spectrum) :
  process_frame s1 s2 -> process_frame s2 s3 -> process_frame s1 s3.
Proof.
  unfold process_frame. intros H1 H2.
  destruct H1 as (? & ? & ? & ? & ? & ? & ? & ? & ? & ? & ?).
  destruct H2 as (? & ? & ? & ? & ? & ? & ? & ? & ? & ? & ?).
  repeat split; congruence.
Qed.

Lemma sized_ingest (left_in right_in : list f32) (s : Spectrum) :
  sized s -> size right_in = size left_in -> size left_in <= n_bands ->
  sized (ingest left_in right_in s)
  /\ length (downmix left_in right_in) = length left_in.
Proof.
  intros [Hmono Hreal Hwin] Hlr HM.
  assert (Hmix : length (downmix left_in right_in) = length left_in)
    by (unfold downmix; rewrite length_zip_with; unfold size in *; lia).
  assert (Hnew : size (in_mono (ingest left_in right_in s)) = n_bands).
  { rewrite in_mono_ingest. unfold size in *.
    rewrite length_app, length_drop. lia. }
  split; [|assumption]. split.
  - assumption.
  - rewrite real_input_ingest. unfold windowed, size in *.
    rewrite length_zip_with. lia.
  - unfold ingest. destruct s; simpl in *.
    destruct send_notifications0; assumption.
Qed.

(** A run of legal calls on an analyzer that is not bypassed. *)
Lemma run_chunks (b : build) (dft : list f32 -> Z -> f32 * f32)
    (acts : list action) (s : Spectrum) :
  Forall chunk_fits acts ->
  data_mutex s = false -> sized s -> bypass s = false -> fftw_ready s = true ->
  exists s',
    run b dft acts s = Ok s'
    /\ in_mono s' = drop (length (mixed acts)) (in_mono s ++ mixed acts)
    /\ sized s' /\ process_frame s s'
    /\ idle_queue s'
       = (if send_notifications s
          then idle_queue s + length acts else idle_queue s)%nat
    /\ (acts <> [] ->
        real_input s' = windowed (in_mono s') (hann_window s)).
Proof.
  intros Hfit. revert s.
  induction Hfit as [|a acts Ha _ IH]; intros s Hm Hsized Hby Hready.
  - exists s. split; [reflexivity|]. unfold mixed. simpl.
    rewrite app_nil_r. repeat split; try apply Hsized; try assumption.
    + destruct (send_notifications s); lia.
    + intros H; contradiction H; reflexivity.
  - destruct a as [li ri lo ro|]; [|destruct Ha].
    destruct Ha as (Hlr & HM & Hlo & Hro).
    cbn [run perform].
    rewrite process_active; try assumption;
      [|destruct Hsized; split; assumption].
    cbn [bind fst].
    destruct (ingest_members li ri s Hm) as [Hframe Hq].
    destruct (sized_ingest li ri s Hsized Hlr HM) as [Hsized1 Hmix].
    pose proof Hframe
      as (Hwin1 & _ & _ & _ & Hready1 & Hby1 & Hsend1 & _ & _ & _ & Hm1).
    destruct (IH (ingest li ri s))
      as (s' & Hrun & Hmono' & Hsized' & Hframe' & Hq' & Hreal');
      [assumption | assumption | congruence | congruence |].
    exists s'. split; [assumption|].
    split; [|split; [assumption|split; [|split]]].
    + rewrite Hmono', in_mono_ingest. unfold mixed.
      cbn [fmap list_fmap concat mix_of].
      fold (mixed acts).
      rewrite length_app, Hmix, <- drop_drop.
      rewrite (drop_app_le (in_mono s))
        by (destruct Hsized; unfold size in *; lia).
      rewrite <- !app_assoc. reflexivity.
    + eapply process_frame_trans; eassumption.
    + rewrite Hq', Hsend1, Hq. simpl.
      destruct (send_notifications s); lia.
    + intros _. destruct acts as [|a' acts'].
      * cbn [run] in Hrun. injection Hrun as <-. apply real_input_ingest.
      * rewrite Hreal' by discriminate. rewrite Hwin1. reflexivity.
Qed.

(** X10 (sliding window).  After any run of legal calls on an analyzer that
    is not bypassed, the mono buffer holds the last [n_bands] samples of the
    old buffer followed by all down-mixed frames of the run, however the
    frames were cut into chunks; with notifications on, one task was posted
    per call. *)
Theorem process_slides (b : build) (dft : list f32 -> Z -> f32 * f32)
    (acts : list action) (s : Spectrum) :
  Forall chunk_fits acts ->
  data_mutex s = false -> sized s -> bypass s = false -> fftw_ready s = true ->
  exists s',
    run b dft acts s = Ok s'
    /\ in_mono s' = drop (length (mixed acts)) (in_mono s ++ mixed acts)
    /\ sized s' /\ process_frame s s'
    /\ idle_queue s'
       = (if send_notifications s
          then idle_queue s + length acts else idle_queue s)%nat.
Proof.
  intros Hfit Hm Hsized Hby Hready.
  destruct (run_chunks b dft acts s Hfit Hm Hsized Hby Hready)
    as (s' & H1 & H2 & H3 & H4 & H5 & _).
  exists s'. split; [assumption|]. split; [assumption|].
  split; [assumption|]. split; assumption.
Qed.

Lemma process_slides_witness :
  exists s',
    run Release example_dft [example_call; example_call] example_analyzer
    = Ok s'
    /\ in_mono s'
       = drop (length (mixed [example_call; example_call]))
           (in_mono example_analyzer ++ mixed [example_call; example_call])
    /\ sized s' /\ process_frame example_analyzer s'
    /\ idle_queue s'
       = (if send_notifications example_analyzer
          then idle_queue example_analyzer
               + length [example_call; example_call]
          else idle_queue example_analyzer)%nat.
Proof.
  apply (process_slides Release example_dft
           [example_call; example_call] example_analyzer);
    try reflexivity.
  - repeat constructor; vm_compute; congruence.
  - split; reflexivity.
Defined.

(** ** The constructor *)

(** The window the constructor computes. *)
Lemma construct_eq (cosf : f32 -> f32) (bypass0 send0 connected0 : bool)
    (rate0 : Z) (alloc : option (Z -> f32 * f32)) (planned : bool) :
  construct cosf bypass0 send0 connected0 rate0 alloc planned
  = Ok {| in_mono := resize n_bands F32.zero;
          real_input := resize n_bands F32.zero;
          hann_window :=
            (fun k => hann cosf (Z.of_nat k)) <$> seq 0 (Z.to_nat n_bands);
          output := resize (size_add (n_bands / 2) 1) F32.zero;
          complex_output := fftwf_alloc_complex n_bands alloc;
          plan := planned;
          fftw_ready := true;
          data_mutex := false;
          bypass := bypass0;
          send_notifications := send0;
          connected_to_pw := connected0;
          rate := rate0;
          idle_queue := O;
          power := [] |}.
Proof.
  unfold construct.
  set (src := (fun k => hann cosf (Z.of_nat k)) <$> seq 0 (Z.to_nat n_bands)).
  assert (Hsrc : size src = n_bands)
    by (unfold src, size; rewrite length_fmap, length_seq; reflexivity).
  assert (Hold : length (resize n_bands F32.zero) = length src)
    by (unfold src, resize;
        rewrite length_replicate, length_fmap, length_seq; reflexivity).
  pose proof (for_loop_rewrite 64 (fun n v => wr v n (hann cosf n)) src
                (resize n_bands F32.zero)) as H.
  rewrite Hsrc in H. rewrite H; [reflexivity | lia | reflexivity | exact Hold |].
  intros n x Hx. pose proof (lookup_lt_Some _ _ _ Hx) as Hn.
  unfold src in Hx. rewrite list_lookup_fmap in Hx.
  assert (Hn' : (n < Z.to_nat n_bands)%nat)
    by (unfold src in Hn; rewrite length_fmap, length_seq in Hn; exact Hn).
  rewrite lookup_seq_lt in Hx by assumption. injection Hx as <-.
  rewrite wr_ok; [rewrite Nat2Z.id; reflexivity|].
  unfold size. rewrite length_app, length_take, length_drop, Hold. lia.
Qed.

(** X11 (construction).  The constructor returns an analyzer with zeroed
    buffers of [n_bands] elements, [n_bands / 2 + 1] zeroed output points, a
    window holding [hann n] at every index [n], the mutex free and nothing
    posted or emitted.  [complex_output] is what [fftwf_alloc_complex] gave:
    an array of [n_bands] entries, or null; [plan] is valid only if the
    planner gave a plan.  Neither result is checked: [fftw_ready] is set in
    every case, and after a failed allocation the first task that runs
    writes through the null array.  The constructor only registers the
    listener: [bypass] keeps the value it had before, whatever the key "show"
    holds. *)
Theorem construct_analyzer (cosf : f32 -> f32) (bypass0 send0 connected0 : bool)
    (rate0 : Z) (alloc : option (Z -> f32 * f32)) (planned : bool) :
  exists s,
    construct cosf bypass0 send0 connected0 rate0 alloc planned = Ok s
    /\ in_mono s = resize n_bands F32.zero
    /\ real_input s = resize n_bands F32.zero
    /\ output s = resize (n_bands / 2 + 1) F32.zero
    /\ sized s
    /\ (forall n : Z, 0 <= n < n_bands ->
          rd (hann_window s) n = Ok (hann cosf n))
    /\ (alloc = None -> complex_output s = Null)
    /\ (forall held, alloc = Some held ->
          exists c, complex_output s = Live c /\ size c = n_bands
                    /\ forall n : Z, 0 <= n < n_bands -> rd c n = Ok (held n))
    /\ plan s = planned
    /\ fftw_ready s = true /\ data_mutex s = false
    /\ bypass s = bypass0 /\ idle_queue s = O /\ power s = []
    /\ (alloc = None -> planned = true -> bypass0 = false ->
        forall dft, fft_task dft s = Fail NullPointer).
Proof.
  eexists. split; [apply construct_eq|].
  cbn [in_mono real_input output hann_window complex_output plan fftw_ready
       data_mutex bypass idle_queue power].
  assert (Hn : 0 <= n_bands) by (unfold n_bands; lia).
  assert (Hout : size_add (n_bands / 2) 1 = n_bands / 2 + 1)
    by (vm_compute; reflexivity).
  rewrite Hout.
  split; [reflexivity|]. split; [reflexivity|]. split; [reflexivity|].
  split; [|split; [|split; [|split; [|repeat split]]]].
  - split; cbn [in_mono real_input hann_window].
    + apply size_resize. assumption.
    + apply size_resize. assumption.
    + unfold size. rewrite length_fmap, length_seq. lia.
  - intros n Hi. apply rd_ok; [lia|].
    rewrite list_lookup_fmap, lookup_seq_lt by lia.
    cbn [fmap option_fmap option_map Nat.add]. rewrite Z2Nat.id by lia.
    reflexivity.
  - intros ->. reflexivity.
  - intros held ->. eexists. split; [reflexivity|]. split.
    + unfold size. rewrite length_fmap, length_seq. lia.
    + intros n Hi. apply rd_ok; [lia|].
      rewrite list_lookup_fmap, lookup_seq_lt by lia.
      cbn [fmap option_fmap option_map Nat.add]. rewrite Z2Nat.id by lia.
      reflexivity.
  - intros -> -> -> dft. unfold fft_task, fftwf_execute.
    cbn [bypass plan real_input complex_output fftwf_alloc_complex].
    rewrite size_resize by assumption.
    rewrite Z.leb_refl. reflexivity.
Qed.

(** X12 (start of the window).  With a cosine that is exactly 1 at +0, the
    first coefficient of the window is +0. *)
Theorem window_starts_at_zero (cosf : f32 -> f32)
    (bypass0 send0 connected0 : bool) (rate0 : Z)
    (alloc : option (Z -> f32 * f32)) (planned : bool) :
  cosf F32.zero = F32.one ->
  exists s,
    construct cosf bypass0 send0 connected0 rate0 alloc planned = Ok s
    /\ rd (hann_window s) 0 = Ok F32.zero.
Proof.
  intros Hcos.
  destruct (construct_ok cosf bypass0 send0 connected0 rate0 alloc planned)
    as (s & Hc & Hwin & _).
  exists s. split; [assumption|]. rewrite Hwin.
  apply rd_ok; [lia|].
  rewrite list_lookup_fmap, lookup_seq_lt by (unfold n_bands; lia).
  cbn [fmap option_fmap option_map Nat.add Z.to_nat Z.of_nat].
  f_equal. apply hann_first. assumption.
Qed.

Lemma window_starts_at_zero_witness :
  exists s,
    construct flat_cos false true true 48000
      (Some (fun _ => (F32.zero, F32.zero))) true = Ok s
    /\ rd (hann_window s) 0 = Ok F32.zero.
Proof.
  apply (window_starts_at_zero flat_cos false true true 48000
           (Some (fun _ => (F32.zero, F32.zero))) true).
  reflexivity.
Defined.

(** ** Tasks of the main loop *)

(** What a task that runs leaves behind. *)
Lemma fft_task_effect (dft : list f32 -> Z -> f32 * f32) (s : Spectrum)
    (c : list (f32 * f32)) :
  bypass s = false -> plan s = true -> complex_output s = Live c ->
  n_bands <= size (real_input s) -> n_bands / 2 + 1 <= size c ->
  size (output s) = n_bands / 2 + 1 ->
  exists s' c',
    fft_task dft s = Ok s'
    /\ power s' = power s ++ [(rate s, n_bands / 2 + 1,
                               spectrum_of dft (real_input s))]
    /\ output s' = spectrum_of dft (real_input s)
    /\ size (output s') = n_bands / 2 + 1
    /\ complex_output s' = Live c' /\ size c' = size c
    /\ task_frame s s'.
Proof.
  intros Hby Hplan Hc Hreal Hsize Hout.
  assert (Hn : size (spectrum_of dft (real_input s)) = n_bands / 2 + 1)
    by (unfold spectrum_of, size; rewrite length_fmap; apply size_dft_bins).
  eexists.
  exists (dft_bins dft (real_input s)
          ++ drop (length (dft_bins dft (real_input s))) c).
  split; [apply (fft_task_runs dft s c); assumption|].
  unfold emit_power, task_frame.
  destruct s; cbn [power rate output complex_output in_mono real_input
                   hann_window plan fftw_ready data_mutex bypass
                   send_notifications connected_to_pw idle_queue
                   set_power set_output set_complex_output] in *.
  rewrite Hn. repeat split; try reflexivity.
  pose proof (size_dft_bins dft real_input0) as Hb.
  unfold size in *. rewrite length_app, length_drop. lia.
Qed.

Lemma run_app (b : build) (dft : list f32 -> Z -> f32 * f32)
    (acts1 acts2 : list action) (s : Spectrum) :
  run b dft (acts1 ++ acts2) s
  = (s1 <- run b dft acts1 s;; run b dft acts2 s1).
Proof.
  revert s. induction acts1 as [|a acts1 IH]; intros s; cbn [app run bind].
  - reflexivity.
  - destruct (perform b dft a s); cbn [bind]; [apply IH|reflexivity].
Qed.

(** [k] waiting tasks, run one after the other. *)
Lemma run_tasks (b : build) (dft : list f32 -> Z -> f32 * f32) (k : nat)
    (s : Spectrum) (c : list (f32 * f32)) :
  (k <= idle_queue s)%nat ->
  bypass s = false -> plan s = true -> complex_output s = Live c ->
  n_bands <= size (real_input s) -> n_bands / 2 + 1 <= size c ->
  size (output s) = n_bands / 2 + 1 ->
  exists s',
    run b dft (replicate k Idle) s = Ok s'
    /\ power s'
       = power s ++ replicate k (rate s, n_bands / 2 + 1,
                                 spectrum_of dft (real_input s))
    /\ idle_queue s' = (idle_queue s - k)%nat
    /\ in_mono s' = in_mono s /\ real_input s' = real_input s.
Proof.
  revert s c. induction k as [|k IH]; intros s c Hk Hby Hplan Hc Hreal Hsize Hout.
  - exists s. cbn [replicate run]. rewrite app_nil_r.
    repeat split; try reflexivity. lia.
  - cbn [replicate run perform]. unfold run_idle.
    destruct (idle_queue s) as [|q] eqn:Hq; [lia|].
    destruct (fft_task_effect dft (set_idle_queue q s) c)
      as (s1 & c1 & Htask & Hpow & _ & Hout1 & Hc1 & Hsz1 & Hframe);
      try assumption.
    rewrite Htask. cbn [bind].
    destruct Hframe as (Hmono1 & Hreal1 & _ & Hplan1 & _ & _ & Hby1 & _ & _ & Hrate1 & Hq1).
    cbn [in_mono real_input plan bypass rate idle_queue power
         set_idle_queue] in *.
    destruct (IH s1 c1) as (s' & Hrun & Hpow' & Hq' & Hmono' & Hreal');
      try congruence; try lia.
    exists s'. split; [assumption|].
    rewrite Hpow', Hpow, Hq', Hq1, Hrate1, Hreal1, Hmono', Hreal', <- app_assoc.
    repeat split; assumption.
Qed.

(** X13 (tasks report the latest buffer).  The task reads [real_input] when
    it runs, not when it was posted.  After a run of legal calls with
    notifications on, [k] tasks run by the main loop emit [k] power signals
    that all carry the spectrum of the buffer as the last call left it, also
    the tasks that earlier calls posted. *)
Theorem tasks_report_latest_buffer (b : build)
    (dft : list f32 -> Z -> f32 * f32) (acts : list action) (k : nat)
    (s : Spectrum) (c : list (f32 * f32)) :
  Forall chunk_fits acts -> acts <> [] ->
  (k <= idle_queue s + length acts)%nat ->
  data_mutex s = false -> sized s -> bypass s = false -> fftw_ready s = true ->
  send_notifications s = true -> plan s = true -> complex_output s = Live c ->
  n_bands / 2 + 1 <= size c -> size (output s) = n_bands / 2 + 1 ->
  exists s1 s2,
    run b dft acts s = Ok s1
    /\ run b dft (acts ++ replicate k Idle) s = Ok s2
    /\ power s2
       = power s
         ++ replicate k (rate s, n_bands / 2 + 1,
                         spectrum_of dft
                           (windowed (in_mono s1) (hann_window s)))
    /\ idle_queue s2 = (idle_queue s + length acts - k)%nat
    /\ in_mono s2 = in_mono s1.
Proof.
  intros Hfit Hne Hk Hm Hsized Hby Hready Hsend Hplan Hc Hsize Hout.
  destruct (run_chunks b dft acts s Hfit Hm Hsized Hby Hready)
    as (s1 & Hrun & _ & Hsized1 & Hframe & Hq & Hreal).
  specialize (Hreal Hne). rewrite Hsend in Hq. cbv iota in Hq.
  destruct Hframe
    as (_ & Hout1 & Hc1 & Hplan1 & _ & Hby1 & _ & _ & Hrate1 & Hpow1 & _).
  destruct (run_tasks b dft k s1 c)
    as (s2 & Hrun2 & Hpow2 & Hq2 & Hmono2 & _);
    try congruence; try lia; try (destruct Hsized1 as [_ Hri _]; lia).
  exists s1, s2. split; [assumption|].
  rewrite run_app, Hrun. cbn [bind]. split; [assumption|].
  rewrite Hpow2, Hpow1, Hrate1, Hreal, Hq2, Hq.
  repeat split; assumption.
Qed.

Lemma tasks_report_latest_buffer_witness :
  exists s1 s2,
    run Release example_dft [example_call; example_call] example_analyzer
    = Ok s1
    /\ run Release example_dft
         ([example_call; example_call] ++ replicate 2 Idle) example_analyzer
       = Ok s2
    /\ power s2
       = power example_analyzer
         ++ replicate 2 (rate example_analyzer, n_bands / 2 + 1,
                         spectrum_of example_dft
                           (windowed (in_mono s1)
                              (hann_window example_analyzer)))
    /\ idle_queue s2
       = (idle_queue example_analyzer
          + length [example_call; example_call] - 2)%nat
    /\ in_mono s2 = in_mono s1.
Proof.
  apply (tasks_report_latest_buffer Release example_dft
           [example_call; example_call] 2 example_analyzer
           (resize n_bands (F32.zero, F32.zero)));
    try reflexivity.
  - repeat constructor; vm_compute; congruence.
  - discriminate.
  - split; reflexivity.
  - vm_compute. congruence.
Defined.

(** ** Emitted values are not negative *)

Lemma binary_round_aux_sign (prec emax : Z) (sx : bool) (mx ex : Z)
    (lx : location) :
  sx = false -> not_negative (binary_round_aux prec emax sx mx ex lx) = true.
Proof.
  intros ->. unfold binary_round_aux.
  destruct (shr_fexp prec emax mx ex lx) as [mrs e'].
  destruct (shr_fexp prec emax _ e' loc_Exact) as [mrs' e''].
  destruct (shr_m mrs'); [reflexivity | | reflexivity].
  destruct (e'' <=? emax - prec); reflexivity.
Qed.

Lemma binary_round_sign (prec emax : Z) (sx : bool) (mx : positive) (ex : Z) :
  sx = false -> not_negative (binary_round prec emax sx mx ex) = true.
Proof.
  intros H. unfold binary_round.
  destruct (shl_align mx ex _) as [mz ez].
  apply binary_round_aux_sign. assumption.
Qed.

Lemma mul_self_not_negative (x : f32) : not_negative (F32.mul x x) = true.
Proof.
  destruct x as [s|s| |s m e]; cbn [F32.mul SFmul not_negative];
    try reflexivity; try (destruct s; reflexivity).
  unfold F32.mul, SFmul. apply binary_round_aux_sign. destruct s; reflexivity.
Qed.

Lemma add_not_negative (x y : f32) :
  not_negative x = true -> not_negative y = true ->
  not_negative (F32.add x y) = true.
Proof.
  destruct x as [sx|sx| |sx mx ex], y as [sy|sy| |sy my ey];
    cbn [not_negative]; intros Hx Hy;
    try apply negb_true_iff in Hx; try apply negb_true_iff in Hy; subst;
    try reflexivity.
  unfold F32.add, SFadd. cbn [cond_Zopp Z.add].
  unfold binary_normalize. apply binary_round_sign. reflexivity.
Qed.

Lemma div_not_negative (x y : f32) :
  not_negative x = true -> not_negative y = true ->
  not_negative (F32.div x y) = true.
Proof.
  destruct x as [sx|sx| |sx mx ex], y as [sy|sy| |sy my ey];
    cbn [not_negative]; intros Hx Hy;
    try apply negb_true_iff in Hx; try apply negb_true_iff in Hy; subst;
    try reflexivity.
  unfold F32.div, SFdiv.
  destruct (SFdiv_core_binary _ _ _ _ _ _) as [[mz ez] lz].
  apply binary_round_aux_sign. reflexivity.
Qed.

Lemma of_Z_not_negative (z : Z) : 0 <= z -> not_negative (F32.of_Z z) = true.
Proof.
  intros Hz. unfold F32.of_Z, binary_normalize.
  destruct z as [|p|p]; [reflexivity | | lia].
  apply binary_round_sign. reflexivity.
Qed.

Lemma of_f32_not_negative (x : f32) :
  not_negative x = true -> not_negative (F64.of_f32 x) = true.
Proof.
  destruct x as [s|s| |s m e]; cbn [F64.of_f32 not_negative]; try tauto.
  intros Hs. apply binary_round_sign. apply negb_true_iff. assumption.
Qed.

Lemma bin_power_not_negative (n_points : Z) (bin : f32 * f32) :
  not_negative (bin_power n_points bin) = true.
Proof.
  unfold bin_power. apply of_f32_not_negative, div_not_negative.
  - apply add_not_negative; apply mul_self_not_negative.
  - apply of_Z_not_negative. unfold size_mul, wrap.
    apply Z.mod_pos_bound. reflexivity.
Qed.

(** X14 (power is not negative).  Whatever bins the transform delivers,
    infinities and NaNs included, every point of an emitted spectrum is +0,
    a positive number, +infinity or NaN: never a negative number, never -0. *)
Theorem power_not_negative (dft : list f32 -> Z -> f32 * f32) (s : Spectrum)
    (c : list (f32 * f32)) :
  bypass s = false -> plan s = true -> complex_output s = Live c ->
  n_bands <= size (real_input s) -> n_bands / 2 + 1 <= size c ->
  size (output s) = n_bands / 2 + 1 ->
  exists s' spectrum,
    fft_task dft s = Ok s'
    /\ power s' = power s ++ [(rate s, n_bands / 2 + 1, spectrum)]
    /\ Forall (fun x => not_negative x = true) spectrum.
Proof.
  intros Hby Hplan Hc Hreal Hsize Hout.
  destruct (fft_task_effect dft s c Hby Hplan Hc Hreal Hsize Hout)
    as (s' & c' & Htask & Hpow & _).
  exists s', (spectrum_of dft (real_input s)).
  split; [assumption|]. split; [assumption|].
  unfold spectrum_of. apply Forall_fmap, Forall_forall.
  intros bin _. apply bin_power_not_negative.
Qed.

Lemma power_not_negative_witness :
  exists s' spectrum,
    fft_task example_dft example_analyzer = Ok s'
    /\ power s' = power example_analyzer
                  ++ [(rate example_analyzer, n_bands / 2 + 1, spectrum)]
    /\ Forall (fun x => not_negative x = true) spectrum.
Proof.
  apply (power_not_negative example_dft example_analyzer
           (resize n_bands (F32.zero, F32.zero)));
    try reflexivity; vm_compute; congruence.
Defined.

(** ** The listener and the calls around it *)

Lemma on_show_changed_eq (v : bool) (s : Spectrum) :
  data_mutex s = false -> on_show_changed v s = Ok (set_bypass (negb v) s).
Proof.
  intros Hm. unfold on_show_changed, lock. rewrite Hm. cbn [bind].
  assert (Hv : (gboolean v =? 0) = negb v) by (destruct v; reflexivity).
  rewrite Hv. destruct s; simpl in *; subst. reflexivity.
Qed.

(** X15 (the key "show" gates the analysis).  After a change of "show" to
    false the next legal call only copies and leaves the analyzer as it is;
    after a change to true it shifts the new frames in, whatever [bypass]
    was before. *)
Theorem show_gates_process (b : build) (v : bool) (s : Spectrum)
    (left_in right_in left_out right_out : list f32) :
  legal_call s left_in right_in left_out right_out -> fftw_ready s = true ->
  exists s1 s2,
    on_show_changed v s = Ok s1
    /\ process b s1 left_in right_in left_out right_out
       = Ok (s2, left_in ++ drop (length left_in) left_out,
                 right_in ++ drop (length right_in) right_out)
    /\ in_mono s2
       = (if v
          then drop (length left_in) (in_mono s) ++ downmix left_in right_in
          else in_mono s)
    /\ idle_queue s2
       = (if v && send_notifications s
          then S (idle_queue s) else idle_queue s).
Proof.
  intros Hlegal Hready. pose proof Hlegal as [Hm Hlr HM Hlo Hro Hmono Hreal Hwin].
  exists (set_bypass (negb v) s).
  assert (Hlegal1 : legal_call (set_bypass (negb v) s)
                      left_in right_in left_out right_out)
    by (split; assumption).
  destruct v; cbn [negb andb].
  - exists (ingest left_in right_in (set_bypass false s)).
    split; [apply on_show_changed_eq; assumption|].
    split; [apply process_active; try assumption; reflexivity|].
    rewrite in_mono_ingest. split; [reflexivity|].
    apply (ingest_members left_in right_in (set_bypass false s) Hm).
  - exists (set_bypass true s).
    split; [apply on_show_changed_eq; assumption|].
    split; [|split; reflexivity].
    apply process_early; try assumption. reflexivity.
Qed.

Lemma show_gates_process_witness :
  exists s1 s2,
    on_show_changed true (set_bypass true example_analyzer) = Ok s1
    /\ process Debug s1 example_left example_right example_out example_out
       = Ok (s2, example_left ++ drop (length example_left) example_out,
                 example_right ++ drop (length example_right) example_out)
    /\ in_mono s2
       = (if true
          then drop (length example_left)
                 (in_mono (set_bypass true example_analyzer))
               ++ downmix example_left example_right
          else in_mono (set_bypass true example_analyzer))
    /\ idle_queue s2
       = (if true && send_notifications (set_bypass true example_analyzer)
          then S (idle_queue (set_bypass true example_analyzer))
          else idle_queue (set_bypass true example_analyzer)).
Proof.
  apply (show_gates_process Debug true (set_bypass true example_analyzer)
           example_left example_right example_out example_out);
    [apply example_call_legal; reflexivity | reflexivity].
Defined.

(** X16 (a posted task is cancelled by "show" = false).  When "show" turns
    false between the call that posted a task and the run of that task, the
    task returns at its test of [bypass]: it emits nothing and writes
    neither [output] nor [complex_output]. *)
Theorem show_off_cancels_task (b : build) (dft : list f32 -> Z -> f32 * f32)
    (s : Spectrum) (left_in right_in left_out right_out : list f32) :
  legal_call s left_in right_in left_out right_out ->
  bypass s = false -> fftw_ready s = true -> send_notifications s = true ->
  exists s1 s2 s3 left_out' right_out',
    process b s left_in right_in left_out right_out
    = Ok (s1, left_out', right_out')
    /\ idle_queue s1 = S (idle_queue s)
    /\ on_show_changed false s1 = Ok s2
    /\ run_idle dft s2 = Ok s3
    /\ power s3 = power s /\ output s3 = output s
    /\ complex_output s3 = complex_output s
    /\ idle_queue s3 = idle_queue s.
Proof.
  intros Hlegal Hby Hready Hsend.
  pose proof (legal_mutex _ _ _ _ _ Hlegal) as Hm.
  destruct (ingest_members left_in right_in s Hm) as [Hframe Hq].
  rewrite Hsend in Hq.
  destruct Hframe as (_ & Hout & Hc & _ & _ & _ & _ & _ & _ & Hpow & Hm1).
  exists (ingest left_in right_in s),
         (set_bypass true (ingest left_in right_in s)),
         (set_idle_queue (idle_queue s)
            (set_bypass true (ingest left_in right_in s))).
  do 2 eexists.
  split; [apply process_active; assumption|].
  split; [assumption|].
  split; [apply (on_show_changed_eq false); assumption|].
  split.
  - unfold run_idle.
    change (idle_queue (set_bypass true (ingest left_in right_in s)))
      with (idle_queue (ingest left_in right_in s)).
    rewrite Hq. reflexivity.
  - repeat split; assumption.
Qed.

Lemma show_off_cancels_task_witness :
  exists s1 s2 s3 left_out' right_out',
    process Release example_analyzer
      example_left example_right example_out example_out
    = Ok (s1, left_out', right_out')
    /\ idle_queue s1 = S (idle_queue example_analyzer)
    /\ on_show_changed false s1 = Ok s2
    /\ run_idle example_dft s2 = Ok s3
    /\ power s3 = power example_analyzer
    /\ output s3 = output example_analyzer
    /\ complex_output s3 = complex_output example_analyzer
    /\ idle_queue s3 = idle_queue example_analyzer.
Proof.
  apply (show_off_cancels_task Release example_dft example_analyzer
           example_left example_right example_out example_out);
    [apply example_call_legal; reflexivity | reflexivity..].
Defined.

(** ** The destructor *)

Lemma destroy_eq (s : Spectrum) :
  data_mutex s = false -> plan s = true -> complex_output s <> Freed ->
  destroy s
  = Ok (set_plan false
          (set_complex_output
             (match complex_output s with Null => Null | _ => Freed end)
             (set_fftw_ready false (set_connected_to_pw false s)))).
Proof.
  intros Hm Hplan Hc. unfold destroy, destroy_begin, disconnect_from_pw, lock.
  destruct s; simpl in *; subst.
  destruct connected_to_pw0, complex_output0; simpl; try reflexivity;
    contradiction Hc; reflexivity.
Qed.

(** X17 (teardown).  On an analyzer with a valid plan the destructor runs
    to its end and releases what FFTW holds exactly once: the plan is
    destroyed and the array freed, unless the array is null, which stays
    null; the analyzer is disconnected from the audio server.  It does not
    withdraw the tasks that wait in the main loop: as many are waiting
    after the object is gone as before, and a destructor entered while the
    mutex is held waits. *)
Theorem delete_spectrum_leaves (s : Spectrum) :
  plan s = true -> complex_output s <> Freed ->
  (data_mutex s = true -> delete_spectrum s = Fail WouldBlock)
  /\ (data_mutex s = false ->
      exists r,
        delete_spectrum s = Ok r
        /\ left_plan r = false
        /\ left_array r
           = match complex_output s with Null => Null | _ => Freed end
        /\ left_connected r = false
        /\ left_queue r = idle_queue s
        /\ left_power r = power s).
Proof.
  intros Hplan Hc. split; intros Hm.
  - unfold delete_spectrum, destroy, destroy_begin, disconnect_from_pw, lock.
    destruct (connected_to_pw s);
      cbn [data_mutex set_connected_to_pw]; rewrite Hm; reflexivity.
  - unfold delete_spectrum. rewrite destroy_eq by assumption. cbn [bind].
    eexists. split; [reflexivity|].
    destruct s; cbn. repeat split.
Qed.

Lemma delete_spectrum_leaves_witness :
  delete_spectrum (set_data_mutex true (idle_add example_analyzer))
  = Fail WouldBlock
  /\ exists r,
       delete_spectrum (idle_add example_analyzer) = Ok r
       /\ left_plan r = false
       /\ left_array r
          = match complex_output (idle_add example_analyzer) with
            | Null => Null
            | _ => Freed
            end
       /\ left_connected r = false
       /\ left_queue r = idle_queue (idle_add example_analyzer)
       /\ left_power r = power (idle_add example_analyzer).
Proof.
  split.
  - apply (delete_spectrum_leaves
             (set_data_mutex true (idle_add example_analyzer)));
      [reflexivity | discriminate | reflexivity].
  - apply (delete_spectrum_leaves (idle_add example_analyzer));
      [reflexivity | discriminate | reflexivity].
Defined.

(** ** What a task keeps, and who takes the mutex *)

(** X19 (a task can run again).  A task that runs changes [output],
    [complex_output] and the emitted signals only: the buffers, the
    window and the flags stay, [output] keeps its [n_bands / 2 + 1] points
    and [complex_output] stays allocated at its length, so everything a task
    needs to run holds again after it has run. *)
Theorem fft_task_keeps_ready (dft : list f32 -> Z -> f32 * f32) (s : Spectrum)
    (c : list (f32 * f32)) :
  bypass s = false -> plan s = true -> complex_output s = Live c ->
  n_bands <= size (real_input s) -> n_bands / 2 + 1 <= size c ->
  size (output s) = n_bands / 2 + 1 ->
  exists s' c',
    fft_task dft s = Ok s'
    /\ task_frame s s'
    /\ complex_output s' = Live c' /\ size c' = size c
    /\ size (output s') = n_bands / 2 + 1.
Proof.
  intros Hby Hplan Hc Hreal Hsize Hout.
  exists (emit_power
            (set_output (spectrum_of dft (real_input s))
               (set_complex_output
                  (Live (dft_bins dft (real_input s)
                         ++ drop (length (dft_bins dft (real_input s))) c))
                  s))),
         (dft_bins dft (real_input s)
          ++ drop (length (dft_bins dft (real_input s))) c).
  split; [apply (fft_task_runs dft s c); assumption|].
  pose proof (size_dft_bins dft (real_input s)) as Hb.
  assert (Hn : size (spectrum_of dft (real_input s)) = n_bands / 2 + 1)
    by (unfold spectrum_of, size; rewrite length_fmap; apply size_dft_bins).
  split; [|split; [|split]].
  - unfold task_frame, emit_power. destruct s; simpl. repeat split.
  - reflexivity.
  - unfold size in *. rewrite length_app, length_drop. lia.
  - exact Hn.
Qed.

Lemma fft_task_keeps_ready_witness :
  exists s' c',
    fft_task example_dft example_analyzer = Ok s'
    /\ task_frame example_analyzer s'
    /\ complex_output s' = Live c'
    /\ size c' = size (resize n_bands (F32.zero, F32.zero))
    /\ size (output s') = n_bands / 2 + 1.
Proof.
  apply (fft_task_keeps_ready example_dft example_analyzer
           (resize n_bands (F32.zero, F32.zero)));
    try reflexivity; vm_compute; congruence.
Defined.

(** X20 (who takes the mutex).  While the data mutex is held, [process],
    the listener and the destructor wait for it.  [setup] and the deferred
    task take no lock: they go on while the mutex is held, [setup] zeroing
    the buffers and the task reading [real_input] and emitting. *)
Theorem setup_and_task_take_no_lock (b : build)
    (dft : list f32 -> Z -> f32 * f32) (s : Spectrum) (c : list (f32 * f32)) :
  data_mutex s = true -> sized s ->
  bypass s = false -> plan s = true -> complex_output s = Live c ->
  n_bands / 2 + 1 <= size c -> size (output s) = n_bands / 2 + 1 ->
  (forall left_in right_in left_out right_out,
      process b s left_in right_in left_out right_out = Fail WouldBlock)
  /\ (forall v, on_show_changed v s = Fail WouldBlock)
  /\ destroy s = Fail WouldBlock
  /\ (exists s', setup b s = Ok s'
                 /\ in_mono s' = resize n_bands F32.zero
                 /\ real_input s' = resize n_bands F32.zero
                 /\ data_mutex s' = true)
  /\ (exists s', fft_task dft s = Ok s'
                 /\ power s'
                    = power s ++ [(rate s, n_bands / 2 + 1,
                                   spectrum_of dft (real_input s))]
                 /\ data_mutex s' = true).
Proof.
  intros Hm [Hmono Hreal Hwin] Hby Hplan Hc Hsize Hout.
  split; [|split; [|split; [|split]]].
  - intros. unfold process, lock. rewrite Hm. reflexivity.
  - intros. unfold on_show_changed, lock. rewrite Hm. reflexivity.
  - unfold destroy, destroy_begin, disconnect_from_pw, lock.
    destruct (connected_to_pw s);
      cbn [data_mutex set_connected_to_pw]; rewrite Hm; reflexivity.
  - assert (Hfill : forall v : list f32,
               size v = n_bands -> fill v F32.zero = resize n_bands F32.zero).
    { intros v Hv. unfold fill, resize. f_equal. unfold size in Hv. lia. }
    assert (Hassert : forall x, x = true -> assert b x = Ok tt)
      by (intros x ->; destruct b; reflexivity).
    unfold setup. cbn [in_mono real_input set_in_mono set_real_input].
    rewrite !Hfill by assumption.
    rewrite !Hassert
      by (rewrite size_resize by (unfold n_bands; lia); apply Z.eqb_refl).
    cbn [bind]. eexists. split; [reflexivity|].
    repeat split. exact Hm.
  - destruct (fft_task_effect dft s c)
      as (s' & c' & Htask & Hpow & _ & _ & _ & _ & Hframe);
      try assumption; [lia|].
    exists s'. split; [assumption|]. split; [assumption|].
    destruct Hframe as (_ & _ & _ & _ & _ & Hm' & _). congruence.
Qed.

Lemma setup_and_task_take_no_lock_witness :
  (forall left_in right_in left_out right_out,
      process Debug (set_data_mutex true example_analyzer)
        left_in right_in left_out right_out = Fail WouldBlock)
  /\ (forall v,
        on_show_changed v (set_data_mutex true example_analyzer)
        = Fail WouldBlock)
  /\ destroy (set_data_mutex true example_analyzer) = Fail WouldBlock
  /\ (exists s', setup Debug (set_data_mutex true example_analyzer) = Ok s'
                 /\ in_mono s' = resize n_bands F32.zero
                 /\ real_input s' = resize n_bands F32.zero
                 /\ data_mutex s' = true)
  /\ (exists s',
        fft_task example_dft (set_data_mutex true example_analyzer) = Ok s'
        /\ power s'
           = power (set_data_mutex true example_analyzer)
             ++ [(rate (set_data_mutex true example_analyzer),
                  n_bands / 2 + 1,
                  spectrum_of example_dft
                    (real_input (set_data_mutex true example_analyzer)))]
        /\ data_mutex s' = true).
Proof.
  apply (setup_and_task_take_no_lock Debug example_dft
           (set_data_mutex true example_analyzer)
           (resize n_bands (F32.zero, F32.zero)));
    try reflexivity; try (split; reflexivity); vm_compute; congruence.
Defined.
